(** * MyCampusRide: the notification controller

    A shallow embedding of [backend/controllers/notificationController.js]:
    the Mongo filters built for listing, bulk mark-as-read and statistics,
    the per-record access checks of the read, mark-as-read and delete
    handlers, and the three handlers that create notifications.

    Collections are lists of documents in insertion order, ObjectIds are
    positive numbers compared with [=] (the source compares their string
    forms), roles are the strings the source compares with [===], and the
    open [metadata] object is a finite map from field names to values. *)

From stdpp Require Import base decidable option list strings gmap pretty.

Local Open Scope string_scope.
Local Open Scope list_scope.

(** ** Documents *)

Abbreviation ObjectId := positive (only parsing).

(** Values stored under [metadata]: the controller writes strings
    (intendedRole, originalTarget, busNumber, routeName, driverName) and one
    number (studentCount). *)
Inductive MetaValue :=
| MString (s : string)
| MNumber (n : nat).

#[global] Instance MetaValue_eq_dec : EqDecision MetaValue.
Proof. solve_decision. Defined.

Record RelatedEntity := {
  re_type : string;
  re_id : ObjectId
}.

(** The object literal handed to [Notification.create]. *)
Record NotificationData := {
  title : string;
  message : string;
  type : string;
  senderRole : string;
  senderId : ObjectId;
  receiverRole : string;
  receiverId : option ObjectId;
  priority : string;
  relatedEntity : option RelatedEntity;
  metadata : option (gmap string MetaValue)
}.

(** A stored notification: the created fields plus what the store adds. *)
Record Notification := {
  _id : ObjectId;
  fields :> NotificationData;
  isRead : bool;
  readAt : option nat
}.

Record User := {
  user_id : ObjectId;
  name : string;
  role : string;
  assignedBus : option ObjectId
}.

Record Route := {
  routeName : string
}.

(** A bus as [Bus.findOne(..).populate('routeId')] returns it: [routeId]
    holds the route document, or nothing. *)
Record Bus := {
  bus_id : ObjectId;
  busNumber : string;
  driverId : option ObjectId;
  routeId : option Route
}.

(** ** Per-record access checks *)

(** [notification.receiverId && notification.receiverId.toString() === userId.toString()] *)
Definition receiverId_is (n : Notification) (userId : ObjectId) : bool :=
  match receiverId n with
  | Some rid => bool_decide (rid = userId)
  | None => false
  end.

(** [notification.metadata?.intendedRole === r] *)
Definition intendedRole_is (n : Notification) (r : string) : bool :=
  bool_decide (metadata n ≫= (.!! "intendedRole") = Some (MString r)).

(** [hasAccess] of [getNotification] (lines 83-87). *)
Definition getNotification_hasAccess (notification : Notification) (user : User) : bool :=
  let userId := user_id user in
  let userRole := role user in
  receiverId_is notification userId
  || bool_decide (receiverRole notification = userRole)
  || bool_decide (receiverRole notification = "all")
  || (bool_decide (userRole = "admin") && intendedRole_is notification "admin").

(** [hasAccess] of [markAsRead] (lines 119-123). *)
Definition markAsRead_hasAccess (notification : Notification) (user : User) : bool :=
  let userId := user_id user in
  let userRole := role user in
  receiverId_is notification userId
  || bool_decide (receiverRole notification = userRole)
  || bool_decide (receiverRole notification = "all")
  || (bool_decide (userRole = "admin") && intendedRole_is notification "admin").

(** [hasAccess] of [deleteNotification] (lines 414-418). *)
Definition deleteNotification_hasAccess (notification : Notification) (user : User) : bool :=
  let userId := user_id user in
  let userRole := role user in
  receiverId_is notification userId
  || bool_decide (receiverRole notification = userRole)
  || bool_decide (receiverRole notification = "all")
  || bool_decide (userRole = "admin").

(** ** Mongo filters *)

(** The three shapes of clause the controller puts under [$or]. *)
Inductive Clause :=
| receiverId_eq (userId : ObjectId)
| receiverRole_eq (r : string)
| metadata_eq (key : string) (v : MetaValue).

(** A filter object: the [$or] array and the optional top-level fields. *)
Record Filter := {
  f_or : list Clause;
  f_isRead : option bool;
  f_type : option string;
  f_priority : option string
}.

Definition clause_matches (n : Notification) (c : Clause) : bool :=
  match c with
  | receiverId_eq userId => bool_decide (receiverId n = Some userId)
  | receiverRole_eq r => bool_decide (receiverRole n = r)
  | metadata_eq key v => bool_decide (metadata n ≫= (.!! key) = Some v)
  end.

Definition field_matches {A} `{EqDecision A} (want : option A) (have : A) : bool :=
  match want with
  | Some w => bool_decide (have = w)
  | None => true
  end.

Definition matches (f : Filter) (n : Notification) : bool :=
  existsb (clause_matches n) (f_or f)
  && field_matches (f_isRead f) (isRead n)
  && field_matches (f_type f) (type n)
  && field_matches (f_priority f) (priority n).

(** JavaScript truthiness of an optional string: present and not empty. *)
Definition truthy (v : option string) : option string :=
  match v with
  | Some s => if bool_decide (s = EmptyString) then None else Some s
  | None => None
  end.

(** The filter of [getNotifications] (lines 15-32); [isRead], [type] and
    [priority] are the optional query parameters. *)
Definition getNotifications_filter (user : User)
    (isRead type priority : option string) : Filter :=
  let userId := user_id user in
  let userRole := role user in
  let or0 := [receiverId_eq userId; receiverRole_eq userRole; receiverRole_eq "all"] in
  let or1 :=
    if bool_decide (userRole = "admin")
    then or0 ++ [metadata_eq "intendedRole" (MString "admin")]
    else or0 in
  {| f_or := or1;
     f_isRead := (λ s, bool_decide (s = "true")) <$> isRead;
     f_type := truthy type;
     f_priority := truthy priority |}.

(** The filter of [markAllAsRead] (lines 149-163). *)
Definition markAllAsRead_filter (user : User) : Filter :=
  let userId := user_id user in
  let userRole := role user in
  let or0 := [receiverId_eq userId; receiverRole_eq userRole; receiverRole_eq "all"] in
  let or1 :=
    if bool_decide (userRole = "admin")
    then or0 ++ [metadata_eq "intendedRole" (MString "admin")]
    else or0 in
  {| f_or := or1; f_isRead := Some false; f_type := None; f_priority := None |}.

(** The [$match] filter of [getNotificationStats] (lines 442-448). *)
Definition getNotificationStats_filter (user : User) : Filter :=
  let userId := user_id user in
  let userRole := role user in
  {| f_or := [receiverId_eq userId; receiverRole_eq userRole; receiverRole_eq "all"];
     f_isRead := None; f_type := None; f_priority := None |}.

(** ** The database and the handler monad *)

Record Db := {
  users : list User;
  buses : list Bus;
  notifications : list Notification;
  next_id : ObjectId
}.

(** An awaited call either yields a value or throws an [Error] (kept as its
    [message]). *)
Inductive Outcome (A : Type) :=
| Returned (a : A)
| Threw (e : string).
Arguments Returned {A} a.
Arguments Threw {A} e.

(** Handlers thread the database; what was written before a throw stays
    written. *)
Definition Handler (A : Type) : Type := Db → Outcome A * Db.

#[global] Instance Handler_ret : MRet Handler := λ A a db, (Returned a, db).

#[global] Instance Handler_bind : MBind Handler := λ A B k m db,
  match m db with
  | (Returned a, db') => k a db'
  | (Threw e, db') => (Threw e, db')
  end.

(** The response a handler sent, if it sent one. *)
Definition responded {A} (r : Outcome A * Db) : option A :=
  match r.1 with
  | Returned a => Some a
  | Threw _ => None
  end.

Definition throw {A} (e : string) : Handler A := λ db, (Threw e, db).

(** [try { body } catch (error) { handler(error) }] *)
Definition try_catch {A} (body : Handler A) (handler : string → Handler A) : Handler A :=
  λ db,
    match body db with
    | (Returned a, db') => (Returned a, db')
    | (Threw e, db') => handler e db'
    end.

(** What [res.status(..).json(..)] sends. *)
Inductive Payload :=
| no_data
| one (n : Notification)
| many (l : list Notification).

Record Response := {
  status : nat;
  success : bool;
  res_message : option string;
  res_error : option string;
  data : Payload
}.

(** ** Queries *)

Definition Notification_find (f : Filter) : Handler (list Notification) :=
  λ db, (Returned (List.filter (matches f) (notifications db)), db).

Definition Notification_countDocuments (f : Filter) : Handler nat :=
  λ db, (Returned (length (List.filter (matches f) (notifications db))), db).

Definition Notification_findById (id : ObjectId) : Handler (option Notification) :=
  λ db, (Returned (head (filter (λ n, _id n = id) (notifications db))), db).

Definition Notification_findByIdAndDelete (id : ObjectId) : Handler unit :=
  λ db, (Returned (),
         {| users := users db; buses := buses db;
            notifications := filter (λ n, _id n ≠ id) (notifications db);
            next_id := next_id db |}).

Definition User_findById (id : ObjectId) : Handler (option User) :=
  λ db, (Returned (head (filter (λ u, user_id u = id) (users db))), db).

(** [User.find({ role: 'student', assignedBus: busId })] *)
Definition User_find_students (busId : ObjectId) : Handler (list User) :=
  λ db, (Returned (filter (λ u, role u = "student" ∧ assignedBus u = Some busId) (users db)), db).

(** [Bus.findOne({ driverId }).populate('routeId')] *)
Definition Bus_findOne_driver (driver : ObjectId) : Handler (option Bus) :=
  λ db, (Returned (head (filter (λ b, driverId b = Some driver) (buses db))), db).

(** Modelled from the spec: the instance method [markAsRead] of
    models/Notification.js, which is not among the sources. It sets
    [isRead] and [readAt = now], and re-marking a read record changes
    nothing. *)
Definition Notification_markAsRead (now : nat) (n : Notification) : Handler Notification :=
  λ db,
    let n' :=
      if isRead n then n
      else {| _id := _id n; fields := fields n; isRead := true; readAt := Some now |} in
    (Returned n',
     {| users := users db; buses := buses db;
        notifications := (λ m, if bool_decide (_id m = _id n) then n' else m) <$> notifications db;
        next_id := next_id db |}).

(** A word between double quotes, as it appears inside a message. *)
Definition quoted (s : string) : string :=
  let q := String (Ascii.ascii_of_nat 34) EmptyString in
  q +:+ s +:+ q.

(** [v || d] on an optional string. *)
Definition or_default (v : option string) (d : string) : string :=
  match truthy v with
  | Some s => s
  | None => d
  end.

(** [bus.routeId?.routeName || 'Unknown Route'] *)
Definition routeName_of (bus : Bus) : string :=
  or_default (routeName <$> routeId bus) "Unknown Route".

(** ** Handlers *)

(** [getNotification] (lines 68-100); [id] is [req.params.id]. *)
Definition getNotification (user : User) (id : ObjectId) : Handler Response :=
  found ← Notification_findById id;
  match found with
  | None =>
      mret {| status := 404; success := false;
              res_message := Some "Notification not found";
              res_error := None; data := no_data |}
  | Some notification =>
      if negb (getNotification_hasAccess notification user) then
        mret {| status := 403; success := false;
                res_message := Some "Access denied to this notification";
                res_error := None; data := no_data |}
      else
        mret {| status := 200; success := true; res_message := None;
                res_error := None; data := one notification |}
  end.

(** [markAsRead] (lines 105-140); [now] is the clock read by the model
    method. *)
Definition markAsRead (user : User) (id : ObjectId) (now : nat) : Handler Response :=
  found ← Notification_findById id;
  match found with
  | None =>
      mret {| status := 404; success := false;
              res_message := Some "Notification not found";
              res_error := None; data := no_data |}
  | Some notification =>
      if negb (markAsRead_hasAccess notification user) then
        mret {| status := 403; success := false;
                res_message := Some "Access denied to this notification";
                res_error := None; data := no_data |}
      else
        notification' ← Notification_markAsRead now notification;
        mret {| status := 200; success := true;
                res_message := Some "Notification marked as read";
                res_error := None; data := one notification' |}
  end.

(** [deleteNotification] (lines 400-433). *)
Definition deleteNotification (user : User) (id : ObjectId) : Handler Response :=
  found ← Notification_findById id;
  match found with
  | None =>
      mret {| status := 404; success := false;
              res_message := Some "Notification not found";
              res_error := None; data := no_data |}
  | Some notification =>
      if negb (deleteNotification_hasAccess notification user) then
        mret {| status := 403; success := false;
                res_message := Some "Access denied to delete this notification";
                res_error := None; data := no_data |}
      else
        _ ← Notification_findByIdAndDelete id;
        mret {| status := 200; success := true;
                res_message := Some "Notification deleted successfully";
                res_error := None; data := no_data |}
  end.

(** ** Handlers that create notifications *)

Section Creation.

(** [Notification.create] validates against the schema of
    models/Notification.js and writes to the database; both can fail. The
    schema is not among the sources, so whether a create is refused, and
    with which error message, is a parameter that may look at the stored
    collection and at the data. *)
Variable create_error : list Notification → NotificationData → option string.

Definition Notification_create (d : NotificationData) : Handler Notification :=
  λ db,
    match create_error (notifications db) d with
    | Some e => (Threw e, db)
    | None =>
        let n := {| _id := next_id db; fields := d; isRead := false; readAt := None |} in
        (Returned n,
         {| users := users db; buses := buses db;
            notifications := notifications db ++ [n];
            next_id := Pos.succ (next_id db) |})
    end.

(** The loop body's literal (lines 234-251). *)
Definition student_notificationData (user : User) (title message : string)
    (type priority : option string) (bus : Bus) (student : User) : NotificationData :=
  {| title := title;
     message := message;
     type := or_default type "info";
     senderRole := role user;
     senderId := user_id user;
     receiverRole := "student";
     receiverId := Some (user_id student);
     priority := or_default priority "medium";
     relatedEntity := Some {| re_type := "bus"; re_id := bus_id bus |};
     metadata := Some {[ "busNumber" := MString (busNumber bus);
                         "routeName" := MString (routeName_of bus) ]} |}.

(** [for (const student of students) { .. }] (lines 231-263); the inner
    [try]/[catch] logs and rethrows. *)
Fixpoint for_students (user : User) (title message : string)
    (type priority : option string) (bus : Bus)
    (students : list User) (notifications : list Notification)
  : Handler (list Notification) :=
  match students with
  | [] => mret notifications
  | student :: rest =>
      let notificationData :=
        student_notificationData user title message type priority bus student in
      notification ←
        try_catch (Notification_create notificationData) (λ createError, throw createError);
      for_students user title message type priority bus rest (notifications ++ [notification])
  end.

(** The admin copy of a send to students (lines 266-286). *)
Definition students_adminNotificationData (user : User) (title message : string)
    (priority : option string) (bus : Bus) (students : list User) : NotificationData :=
  {| title := "[Driver: " +:+ name user +:+ "] " +:+ title;
     message := "To students on bus " +:+ busNumber bus +:+ ": " +:+ message;
     type := "info";
     senderRole := "driver";
     senderId := user_id user;
     receiverRole := "all";
     receiverId := None;
     priority := or_default priority "medium";
     relatedEntity := Some {| re_type := "bus"; re_id := bus_id bus |};
     metadata := Some {[ "intendedRole" := MString "admin";
                         "originalTarget" := MString "students";
                         "busNumber" := MString (busNumber bus);
                         "routeName" := MString (routeName_of bus);
                         "studentCount" := MNumber (length students) ]} |}.

(** The notification of a send to the admins (lines 291-304). *)
Definition admin_adminNotificationData (user : User) (title message : string)
    (type priority : option string) : NotificationData :=
  {| title := "[Driver: " +:+ name user +:+ "] " +:+ title;
     message := message;
     type := or_default type "info";
     senderRole := "driver";
     senderId := user_id user;
     receiverRole := "all";
     receiverId := None;
     priority := or_default priority "medium";
     relatedEntity := None;
     metadata := Some {[ "intendedRole" := MString "admin";
                         "driverName" := MString (name user) ]} |}.

(** The 201 response of [sendTargetedNotification] (lines 313-318). *)
Definition targeted_created (targetType : string) (notifications : list Notification) : Response :=
  {| status := 201; success := true;
     res_message :=
       Some ("Notification sent to " +:+ pretty (length notifications) +:+ " recipient(s)"
             +:+ (if bool_decide (targetType = "students")
                  then " (" +:+ pretty (length notifications - 1) +:+ " students + 1 admin copy)"
                  else EmptyString));
     res_error := None;
     data := many notifications |}.

(** [sendTargetedNotification] (lines 179-328). [populate] only changes how
    the sender is shown in the response and is left out. *)
Definition sendTargetedNotification (user : User) (title message : string)
    (type priority : option string) (targetType : string) : Handler Response :=
  let senderId := user_id user in
  let senderRole := role user in
  if bool_decide (senderRole ≠ "driver") then
    mret {| status := 403; success := false;
            res_message := Some "Only drivers can send targeted notifications";
            res_error := None; data := no_data |}
  else if negb (bool_decide (targetType ∈ ["students"; "admin"])) then
    mret {| status := 400; success := false;
            res_message :=
              Some ("Invalid target type. Must be " +:+ quoted "students"
                    +:+ " or " +:+ quoted "admin");
            res_error := None; data := no_data |}
  else
    try_catch
      (if bool_decide (targetType = "students") then
         bus ← Bus_findOne_driver senderId;
         match bus with
         | None =>
             mret {| status := 404; success := false;
                     res_message := Some "No bus assigned to you";
                     res_error := None; data := no_data |}
         | Some bus =>
             students ← User_find_students (bus_id bus);
             notifications ← for_students user title message type priority bus students [];
             adminNotification ←
               Notification_create
                 (students_adminNotificationData user title message priority bus students);
             mret (targeted_created targetType (notifications ++ [adminNotification]))
         end
       else if bool_decide (targetType = "admin") then
         adminNotification ←
           Notification_create (admin_adminNotificationData user title message type priority);
         mret (targeted_created targetType [adminNotification])
       else
         mret (targeted_created targetType []))
      (λ error,
         mret {| status := 500; success := false;
                 res_message := Some "Failed to send notification";
                 res_error := Some error; data := no_data |}).

(** [createNotification] (lines 330-395). An error thrown by
    [Notification.create] is not caught here: [asyncHandler] passes it on. *)
Definition createNotification (user : User) (title message : string)
    (type : option string) (receiverRole : string) (receiverId : option ObjectId)
    (priority : option string) (relatedEntity : option RelatedEntity)
  : Handler Response :=
  let senderId := user_id user in
  let senderRole := role user in
  let create : Handler Response :=
    notification ←
      Notification_create
        {| title := title;
           message := message;
           type := or_default type "info";
           senderRole := senderRole;
           senderId := senderId;
           receiverRole := receiverRole;
           receiverId := receiverId;
           priority := or_default priority "medium";
           relatedEntity := relatedEntity;
           metadata := None |};
    mret {| status := 201; success := true;
            res_message := Some "Notification created successfully";
            res_error := None; data := one notification |} in
  if bool_decide (receiverRole = "admin") && bool_decide (senderRole ≠ "admin") then
    mret {| status := 403; success := false;
            res_message := Some "Only admins can send notifications to other admins";
            res_error := None; data := no_data |}
  else
    match receiverId with
    | Some rid =>
        receiver ← User_findById rid;
        match receiver with
        | None =>
            mret {| status := 404; success := false;
                    res_message := Some "Receiver not found";
                    res_error := None; data := no_data |}
        | Some receiver =>
            if bool_decide (role receiver ≠ receiverRole) then
              mret {| status := 400; success := false;
                      res_message := Some "Receiver role does not match specified role";
                      res_error := None; data := no_data |}
            else create
        end
    | None => create
    end.

(** The literal created for one target role (lines 525-534). *)
Definition broadcast_notificationData (user : User) (title message : string)
    (type priority : option string) (role : string) : NotificationData :=
  {| title := title;
     message := message;
     type := or_default type "info";
     senderRole := "admin";
     senderId := user_id user;
     receiverRole := role;
     receiverId := None;
     priority := or_default priority "medium";
     relatedEntity := None;
     metadata := None |}.

(** [for (const role of targetRoles) { .. }] (lines 524-536). *)
Fixpoint for_targetRoles (user : User) (title message : string)
    (type priority : option string)
    (targetRoles : list string) (notifications : list Notification)
  : Handler (list Notification) :=
  match targetRoles with
  | [] => mret notifications
  | role :: rest =>
      notification ←
        Notification_create (broadcast_notificationData user title message type priority role);
      for_targetRoles user title message type priority rest (notifications ++ [notification])
  end.

(** [broadcastNotification] (lines 511-543); [targetRoles] may be missing
    from the body. *)
Definition broadcastNotification (user : User) (title message : string)
    (type priority : option string) (targetRoles : option (list string))
  : Handler Response :=
  match targetRoles with
  | None | Some [] =>
      mret {| status := 400; success := false;
              res_message := Some "Target roles are required for broadcast";
              res_error := None; data := no_data |}
  | Some targetRoles =>
      notifications ← for_targetRoles user title message type priority targetRoles [];
      mret {| status := 201; success := true;
              res_message :=
                Some ("Broadcast notification sent to "
                      +:+ pretty (length notifications) +:+ " role(s)");
              res_error := None; data := many notifications |}
  end.

(** The shape shared by the two loops: create the literals in order and
    collect the stored documents. *)
Fixpoint create_each (literals : list NotificationData) (notifications : list Notification)
  : Handler (list Notification) :=
  match literals with
  | [] => mret notifications
  | d :: rest =>
      notification ← Notification_create d;
      create_each rest (notifications ++ [notification])
  end.

End Creation.

(** The literals of one send to students, in the order of their creation:
    one per student, then the admin copy. *)
Definition students_fanout (user : User) (title message : string)
    (type priority : option string) (bus : Bus) (students : list User)
  : list NotificationData :=
  (student_notificationData user title message type priority bus <$> students)
  ++ [students_adminNotificationData user title message priority bus students].

(** The documents stored by a run of accepted creates, the first under the
    id [first]. *)
Fixpoint stored_from (first : ObjectId) (literals : list NotificationData)
  : list Notification :=
  match literals with
  | [] => []
  | d :: rest =>
      {| _id := first; fields := d; isRead := false; readAt := None |}
      :: stored_from (Pos.succ first) rest
  end.

(** The database once the documents [created] have been added to it. *)
Definition db_after (db : Db) (created : list Notification) : Db :=
  {| users := users db;
     buses := buses db;
     notifications := notifications db ++ created;
     next_id := Nat.iter (length created) Pos.succ (next_id db) |}.

(** ** Counting *)

(** The two counts of [getNotifications] (lines 45-51): [total] and
    [unreadCount], the latter under [{ ...filter, isRead: false }]. The page
    of documents (sort, skip, limit) is not modelled. *)
Definition getNotifications_counts (user : User)
    (isRead type priority : option string) : Handler (nat * nat) :=
  let filter := getNotifications_filter user isRead type priority in
  total ← Notification_countDocuments filter;
  unreadCount ←
    Notification_countDocuments
      {| f_or := f_or filter; f_isRead := Some false;
         f_type := f_type filter; f_priority := f_priority filter |};
  mret (total, unreadCount).

(** One bucket of [typeCounts] / [priorityCounts]. *)
Record Bucket := {
  total : nat;
  unread : nat
}.

(** The names every JavaScript object inherits from [Object.prototype].
    Read through [typeCounts[name]], each yields a function or an object,
    which is truthy, although [typeCounts] has no such key of its own. *)
Definition Object_prototype_names : list string :=
  [ "constructor"; "__proto__"; "hasOwnProperty"; "isPrototypeOf";
    "propertyIsEnumerable"; "toString"; "toLocaleString"; "valueOf";
    "__defineGetter__"; "__defineSetter__"; "__lookupGetter__"; "__lookupSetter__" ].

(** The body of the two [forEach] loops (lines 479-495), for one item. For
    an inherited name the test [!typeCounts[item.type]] fails, no bucket is
    created, and the two increments land on the inherited value: the
    counts are unchanged. *)
Definition count_item (key : string) (isRead : bool) (counts : gmap string Bucket)
  : gmap string Bucket :=
  if bool_decide (key ∈ Object_prototype_names) then counts
  else
    let b := default {| total := 0; unread := 0 |} (counts !! key) in
    <[key := {| total := S (total b);
                unread := if isRead then unread b else S (unread b) |}]> counts.

Record Stats := {
  stats_total : nat;
  stats_unread : nat;
  byType : gmap string Bucket;
  byPriority : gmap string Bucket
}.

(** [getNotificationStats] (lines 438-506): the [$match] and [$group]
    stages, then the two counting loops. *)
Definition getNotificationStats (user : User) : Handler Stats :=
  matched ← Notification_find (getNotificationStats_filter user);
  mret {| stats_total := length matched;
          stats_unread := length (List.filter (λ n : Notification, negb (isRead n)) matched);
          byType := foldl (λ counts (n : Notification), count_item (type n) (isRead n) counts) ∅ matched;
          byPriority := foldl (λ counts (n : Notification), count_item (priority n) (isRead n) counts) ∅ matched |}.

(** ** Bulk mark-as-read *)

#[global] Instance RelatedEntity_eq_dec : EqDecision RelatedEntity.
Proof. solve_decision. Defined.

#[global] Instance NotificationData_eq_dec : EqDecision NotificationData.
Proof. solve_decision. Defined.

#[global] Instance Notification_eq_dec : EqDecision Notification.
Proof. solve_decision. Defined.

(** [Notification.updateMany(filter, update)]: every matching document is
    updated in place; the result's [modifiedCount] counts the matching
    documents that the update changed. *)
Definition Notification_updateMany (f : Filter) (update : Notification → Notification)
  : Handler nat :=
  λ db,
    let matched := List.filter (matches f) (notifications db) in
    (Returned (length (List.filter (λ n, bool_decide (update n ≠ n)) matched)),
     {| users := users db; buses := buses db;
        notifications := (λ n, if matches f n then update n else n) <$> notifications db;
        next_id := next_id db |}).

(** The update document [{ isRead: true, readAt: new Date() }]. *)
Definition set_read (now : nat) (n : Notification) : Notification :=
  {| _id := _id n; fields := fields n; isRead := true; readAt := Some now |}.

(** [markAllAsRead] (lines 145-174); [now] is [new Date()]. *)
Definition markAllAsRead (user : User) (now : nat) : Handler Response :=
  result ← Notification_updateMany (markAllAsRead_filter user) (set_read now);
  mret {| status := 200; success := true;
          res_message := Some (pretty result +:+ " notifications marked as read");
          res_error := None; data := no_data |}.

(** ** Invariants of the collection *)

(** The admin tag occurs only on broadcast-shaped records. *)
Definition tag_only_on_all (stored : list Notification) : Prop :=
  ∀ n : Notification, n ∈ stored →
    intendedRole_is n "admin" = true → receiverRole n = "all" ∧ receiverId n = None.

(** The same condition on a literal about to be created. *)
Definition tag_ok (d : NotificationData) : Prop :=
  metadata d ≫= (.!! "intendedRole") = Some (MString "admin") →
  receiverRole d = "all" ∧ receiverId d = None.

(** One request served by a handler of the controller, with any user and
    any arguments; the database is what the handler leaves, whether it
    answered, refused or threw. *)
Inductive step (create_error : list Notification → NotificationData → option string)
  : Db → Db → Prop :=
| step_sendTargetedNotification user subject body q_type q_priority targetType db :
    step create_error db
      (sendTargetedNotification create_error user subject body q_type q_priority
         targetType db).2
| step_createNotification user subject body q_type to_role to_id q_priority related db :
    step create_error db
      (createNotification create_error user subject body q_type to_role to_id
         q_priority related db).2
| step_broadcastNotification user subject body q_type q_priority targetRoles db :
    step create_error db
      (broadcastNotification create_error user subject body q_type q_priority
         targetRoles db).2
| step_getNotification user nid db :
    step create_error db (getNotification user nid db).2
| step_markAsRead user nid now db :
    step create_error db (markAsRead user nid now db).2
| step_markAllAsRead user now db :
    step create_error db (markAllAsRead user now db).2
| step_deleteNotification user nid db :
    step create_error db (deleteNotification user nid db).2.

(** The databases the controller can bring about: it starts with an empty
    collection of notifications and serves requests one after the other. *)
Inductive reachable (create_error : list Notification → NotificationData → option string)
  : Db → Prop :=
| reachable_empty db :
    notifications db = [] → reachable create_error db
| reachable_step db db' :
    reachable create_error db → step create_error db db' → reachable create_error db'.

(** Ids are distinct and below the next id to be given out. *)
Definition fresh_ids (db : Db) : Prop :=
  Forall (λ n : Notification, (_id n < next_id db)%positive) (notifications db)
  ∧ NoDup (_id <$> notifications db).

(** ** The send form of the client *)

(** The state of [SendNotificationModal] (part_000, lines 21-26). *)
Record FormData := {
  form_title : string;
  form_message : string;
  form_priority : string;
  recipientType : string
}.

(** The state the form starts from, and returns to when closed. *)
Definition initial_formData : FormData :=
  {| form_title := EmptyString; form_message := EmptyString;
     form_priority := "medium"; recipientType := "all" |}.

(** The call [handleSubmit] makes on [notificationService], with the object
    it passes. *)
Inductive ApiCall :=
| call_sendTargetedNotification (title message priority targetType : string)
| call_broadcastNotification (title message priority : string) (targetRoles : list string)
| call_createNotification (title message priority receiverRole : string)
    (receiverId : option ObjectId).

(** The object literal [roleMapping] (part_000, lines 66-71). *)
Definition roleMapping : gmap string string :=
  {[ "students" := "student"; "drivers" := "driver";
     "admins" := "admin"; "admin" := "admin" ]}.

(** [roleMapping[formData.recipientType] || formData.recipientType]. Names
    that a JavaScript object inherits from its prototype are not keys of
    the map. *)
Definition backendRole (formData : FormData) : string :=
  or_default (roleMapping !! recipientType formData) (recipientType formData).

(** The choice of call in [handleSubmit] (part_000, lines 44-84); [user] is
    the component's [user] property, which may be missing. *)
Definition handleSubmit_call (user : option User) (formData : FormData) : ApiCall :=
  if bool_decide (role <$> user = Some "driver") then
    call_sendTargetedNotification (form_title formData) (form_message formData)
      (form_priority formData) (recipientType formData)
  else if bool_decide (recipientType formData = "all") then
    call_broadcastNotification (form_title formData) (form_message formData)
      (form_priority formData) ["admin"; "driver"; "student"]
  else
    call_createNotification (form_title formData) (form_message formData)
      (form_priority formData) (backendRole formData) None.

(** Modelled from the spec: the middleware [adminOnly] of
    middleware/roleMiddleware.js, which is not among the sources. Only a
    sender whose role is "admin" may broadcast (spec 4.1, intent 3); the
    middleware lets exactly those requests through. *)
Definition adminOnly (user : User) : bool :=
  bool_decide (role user = "admin").

(** Modelled from the spec: the middleware [adminOrDriver] of
    middleware/roleMiddleware.js, which is not among the sources. The
    producers of notifications are admins and drivers (spec 2); the
    middleware lets exactly their requests through. *)
Definition adminOrDriver (user : User) : bool :=
  bool_decide (role user = "admin") || bool_decide (role user = "driver").

(** What routes/notifications.js (lines 29-33) runs for a call: the role
    middleware, then the handler bound under the name of the call, applied
    to the object passed ([type] and [relatedEntity] are not sent). When
    the middleware stops the request no handler runs and the result is
    [None]: what the middleware answers is not modelled. The service
    module that posts the object is not among the sources. *)
Definition route_of_call
    (create_error : list Notification → NotificationData → option string)
    (user : User) (call : ApiCall) (db : Db) : option (Outcome Response * Db) :=
  match call with
  | call_sendTargetedNotification title message priority targetType =>
      if adminOrDriver user then
        Some (sendTargetedNotification create_error user title message None
                (Some priority) targetType db)
      else None
  | call_broadcastNotification title message priority targetRoles =>
      if adminOnly user then
        Some (broadcastNotification create_error user title message None
                (Some priority) (Some targetRoles) db)
      else None
  | call_createNotification title message priority receiverRole receiverId =>
      if adminOrDriver user then
        Some (createNotification create_error user title message None receiverRole
                receiverId (Some priority) None db)
      else None
  end.

(** ** Reference data for the examples *)

Definition ann : User := {| user_id := 1; name := "Ann"; role := "admin"; assignedBus := None |}.
Definition dan : User := {| user_id := 2; name := "Dan"; role := "driver"; assignedBus := None |}.
Definition sam : User := {| user_id := 3; name := "Sam"; role := "student"; assignedBus := Some 10%positive |}.
Definition sue : User := {| user_id := 4; name := "Sue"; role := "student"; assignedBus := Some 10%positive |}.
Definition tom : User := {| user_id := 5; name := "Tom"; role := "student"; assignedBus := Some 10%positive |}.
Definition eve : User := {| user_id := 6; name := "Eve"; role := "driver"; assignedBus := None |}.

Definition bus7 : Bus :=
  {| bus_id := 10; busNumber := "B-7"; driverId := Some 2%positive;
     routeId := Some {| routeName := "North" |} |}.

(** A campus with one bus, driven by Dan, carrying the given students. *)
Definition campus (students : list User) : Db :=
  {| users := [ann; dan; eve] ++ students;
     buses := [bus7];
     notifications := [];
     next_id := 100 |}.

(** A store that never refuses a create. *)
Definition accepts_all : list Notification → NotificationData → option string :=
  λ _ _, None.

(** A store that refuses, with a fixed message, every notification addressed
    to user 5 (Tom). *)
Definition refuses_tom : list Notification → NotificationData → option string :=
  λ _ d, if bool_decide (receiverId d = Some 5%positive)
         then Some "E11000 duplicate key" else None.

(** The admin copy that a driver's send to the admins stores, as the first
    record of an empty collection. *)
Definition admin_copy : Notification :=
  {| _id := 100;
     fields := admin_adminNotificationData dan "Flat tyre" "Bus 7 is stopped" None None;
     isRead := false; readAt := None |}.

(** What an admin's direct notification to Sam (user 3) is stored as, as
    the first record of an empty collection. *)
Definition fee_note : Notification :=
  {| _id := 100;
     fields :=
       {| title := "Fee"; message := "Pay by Friday"; type := "info";
          senderRole := "admin"; senderId := 1;
          receiverRole := "student"; receiverId := Some 3%positive;
          priority := "medium"; relatedEntity := None; metadata := None |};
     isRead := false; readAt := None |}.

(** A record tagged for the admins whose receiverRole is not "all". *)
Definition tagged_driver_note : Notification :=
  {| _id := 100;
     fields :=
       {| title := "Inspection"; message := "Bus 7 is due"; type := "info";
          senderRole := "admin"; senderId := 1;
          receiverRole := "driver"; receiverId := None;
          priority := "medium"; relatedEntity := None;
          metadata := Some {[ "intendedRole" := MString "admin" ]} |};
     isRead := false; readAt := None |}.

(** A store with three records: the direct note to Sam (unread), an admin
    copy (read at time 5) and a note to all drivers (unread). *)
Definition sample_db : Db :=
  {| users := [ann; dan; eve; sam; sue];
     buses := [bus7];
     notifications :=
       [ fee_note;
         {| _id := 101; fields := fields admin_copy; isRead := true; readAt := Some 5 |};
         {| _id := 102;
            fields := broadcast_notificationData ann "Depot" "Closed on Monday"
                        None (Some "high") "driver";
            isRead := false; readAt := None |} ];
     next_id := 103 |}.

(** ** Properties of the access checks *)

Lemma markAsRead_hasAccess_eq notification user :
  markAsRead_hasAccess notification user = getNotification_hasAccess notification user.
Proof. reflexivity. Qed.

Lemma role_all_hasAccess (N : Notification) (V : User) :
  receiverRole N = "all" → getNotification_hasAccess N V = true.
Proof.
  intros HN. unfold getNotification_hasAccess.
  rewrite (bool_decide_eq_true_2 _ HN).
  by rewrite !orb_true_r.
Qed.

Lemma receiverId_is_true (N : Notification) (uid : ObjectId) :
  receiverId_is N uid = true ↔ receiverId N = Some uid.
Proof.
  unfold receiverId_is. destruct (receiverId N) as [rid|]; [|naive_solver].
  rewrite bool_decide_eq_true. naive_solver.
Qed.

Lemma receiverId_is_clause (N : Notification) (uid : ObjectId) :
  receiverId_is N uid = clause_matches N (receiverId_eq uid).
Proof.
  apply eq_true_iff_eq. rewrite receiverId_is_true. simpl.
  by rewrite bool_decide_eq_true.
Qed.

(** C1 (the code at the failing input): a driver sends to the admins; the
    stored record has receiverRole "all", no receiverId and the tag
    intendedRole = "admin"; a student who is not its receiver reads it with
    status 200 and marks it as read with status 200. The claim requires
    both checks to refuse. *)
Lemma admin_copy_visible_to_student :
  let db := snd (sendTargetedNotification accepts_all dan "Flat tyre" "Bus 7 is stopped"
                   None None "admin" (campus [sam])) in
  notifications db = [admin_copy]
  ∧ receiverRole admin_copy = "all"
  ∧ intendedRole_is admin_copy "admin" = true
  ∧ role sam ≠ "admin"
  ∧ receiverId admin_copy ≠ Some (user_id sam)
  ∧ getNotification_hasAccess admin_copy sam = true
  ∧ status <$> responded (getNotification sam 100 db) = Some 200
  ∧ status <$> responded (markAsRead sam 100 7 db) = Some 200.
Proof. vm_compute. repeat split; congruence. Qed.

(** The listing filter without query parameters and the read check are the
    same predicate, for every viewer. *)
Lemma listing_filter_hasAccess (V : User) (N : Notification) :
  matches (getNotifications_filter V None None None) N = getNotification_hasAccess N V.
Proof.
  unfold matches, getNotifications_filter, getNotification_hasAccess, intendedRole_is.
  rewrite receiverId_is_clause. simpl.
  case_bool_decide; simpl; rewrite ?orb_false_r, ?andb_true_r; by rewrite ?orb_assoc.
Qed.

(** C5: the delete check holds exactly when the read check holds or the
    viewer's role is "admin". *)
Theorem canDelete_iff_canView_or_admin (N : Notification) (V : User) :
  deleteNotification_hasAccess N V = true
  ↔ getNotification_hasAccess N V = true ∨ role V = "admin".
Proof.
  unfold deleteNotification_hasAccess, getNotification_hasAccess.
  rewrite !orb_true_iff, andb_true_iff, !bool_decide_eq_true. tauto.
Qed.

(** C6: for a viewer whose role is not "admin", the listing filter matches a
    notification exactly when the read check grants access to it, so the
    listing query returns exactly the stored notifications the viewer may
    read. *)
Theorem listing_matches_exactly_viewable (V : User) (Hrole : role V ≠ "admin") :
  (∀ N, matches (getNotifications_filter V None None None) N = true
        ↔ getNotification_hasAccess N V = true)
  ∧ ∀ db, responded (Notification_find (getNotifications_filter V None None None) db)
          = Some (List.filter (λ N, getNotification_hasAccess N V) (notifications db)).
Proof.
  split.
  - intros N. by rewrite listing_filter_hasAccess.
  - intros db. unfold responded, Notification_find. simpl. f_equal.
    apply List.filter_ext. intros N. apply listing_filter_hasAccess.
Qed.

Lemma listing_matches_exactly_viewable_witness :
  role sam ≠ "admin"
  ∧ (matches (getNotifications_filter sam None None None) admin_copy = true
     ↔ getNotification_hasAccess admin_copy sam = true)
  ∧ responded (Notification_find (getNotifications_filter sam None None None)
                 (campus [sam]))
    = Some (List.filter (λ N, getNotification_hasAccess N sam) (notifications (campus [sam]))).
Proof.
  assert (Hrole : role sam ≠ "admin") by (vm_compute; congruence).
  destruct (listing_matches_exactly_viewable sam Hrole) as [Hpoint Hfind].
  split; [exact Hrole|]. split; [apply Hpoint | apply Hfind].
Defined.

(** C10: whatever the viewer's role, the delete check grants access to every
    notification whose receiverRole is "all", tagged for the admins or not,
    and the delete handler then removes the stored record with status 200. *)
Theorem role_all_deletable_by_anyone (V : User) (N : Notification)
    (Hall : receiverRole N = "all") :
  deleteNotification_hasAccess N V = true
  ∧ ∀ db, responded (Notification_findById (_id N) db) = Some (Some N) →
      ∃ res db', deleteNotification V (_id N) db = (Returned res, db')
                 ∧ status res = 200
                 ∧ N ∉ notifications db'.
Proof.
  assert (Hacc : deleteNotification_hasAccess N V = true).
  { unfold deleteNotification_hasAccess.
    rewrite (bool_decide_eq_true_2 _ Hall). by rewrite orb_true_r. }
  split; [exact Hacc|].
  intros db Hfound. unfold responded, Notification_findById in Hfound. simpl in Hfound.
  injection Hfound as Hfound.
  eexists _, _. unfold deleteNotification, mbind, Handler_bind, Notification_findById.
  rewrite Hfound, Hacc. simpl. split; [reflexivity|]. split; [reflexivity|].
  intros [Hne _]%list_elem_of_filter. by apply Hne.
Qed.

Lemma role_all_deletable_by_anyone_witness :
  receiverRole admin_copy = "all"
  ∧ deleteNotification_hasAccess admin_copy sam = true.
Proof.
  assert (Hall : receiverRole admin_copy = "all") by reflexivity.
  split; [exact Hall|].
  exact (proj1 (role_all_deletable_by_anyone sam admin_copy Hall)).
Defined.

(** For a viewer whose role is not "admin" the statistics filter and the
    listing filter are the same predicate. *)
Lemma stats_filter_listing_non_admin (V : User) (N : Notification) :
  role V ≠ "admin" →
  matches (getNotificationStats_filter V) N
  = matches (getNotifications_filter V None None None) N.
Proof.
  intros Hrole. unfold matches, getNotificationStats_filter, getNotifications_filter.
  by rewrite (bool_decide_eq_false_2 _ Hrole).
Qed.

(** The two filters also agree, for every viewer, on a record that carries
    the admin tag only together with receiverRole "all", the one shape in
    which this controller stores the tag. *)
Lemma stats_filter_listing_tagged_all (V : User) (N : Notification) :
  (intendedRole_is N "admin" = true → receiverRole N = "all") →
  matches (getNotificationStats_filter V) N
  = matches (getNotifications_filter V None None None) N.
Proof.
  intros Htag. destruct (decide (role V = "admin")) as [Hadmin|Hother];
    [|by apply stats_filter_listing_non_admin].
  unfold matches, getNotificationStats_filter, getNotifications_filter.
  rewrite (bool_decide_eq_true_2 _ Hadmin). simpl.
  unfold intendedRole_is in Htag.
  destruct (bool_decide (metadata N ≫= (.!! "intendedRole") = Some (MString "admin")));
    [|by rewrite !orb_false_r].
  rewrite (bool_decide_eq_true_2 (receiverRole N = "all")) by by apply Htag.
  by rewrite !orb_true_r.
Qed.

(** As predicates on arbitrary records the two filters differ: on a record
    tagged intendedRole = "admin" whose receiverRole is "driver", the
    listing filter and the bulk mark-as-read filter of the admin Ann match,
    the statistics filter does not. No handler stores such a record. *)
Lemma stats_filter_misses_admin_tag :
  let db := {| users := [ann]; buses := []; notifications := [tagged_driver_note];
               next_id := 101 |} in
  role ann = "admin"
  ∧ intendedRole_is tagged_driver_note "admin" = true
  ∧ matches (getNotifications_filter ann None None None) tagged_driver_note = true
  ∧ matches (markAllAsRead_filter ann) tagged_driver_note = true
  ∧ matches (getNotificationStats_filter ann) tagged_driver_note = false
  ∧ responded (getNotifications_counts ann None None None db) = Some (1, 1)
  ∧ stats_total <$> responded (getNotificationStats ann db) = Some 0.
Proof. vm_compute. repeat split. Qed.

(** ** Sequences of creates *)

Lemma db_after_nil db : db_after db [] = db.
Proof. destruct db. unfold db_after. simpl. by rewrite app_nil_r. Qed.

Lemma db_after_cons db n created :
  db_after (db_after db [n]) created = db_after db (n :: created).
Proof.
  unfold db_after. simpl. rewrite <- app_assoc. simpl.
  by rewrite <- Nat.iter_succ_r.
Qed.

Lemma db_after_app db created1 created2 :
  db_after (db_after db created1) created2 = db_after db (created1 ++ created2).
Proof.
  revert db. induction created1 as [|n created1 IH]; intros db.
  - by rewrite db_after_nil.
  - rewrite <- db_after_cons, IH, db_after_cons. done.
Qed.

Lemma length_stored_from first literals :
  length (stored_from first literals) = length literals.
Proof.
  revert first. induction literals as [|d rest IH]; intros first; simpl; [done|].
  by rewrite IH.
Qed.

Lemma fields_stored_from first literals :
  fields <$> stored_from first literals = literals.
Proof.
  revert first. induction literals as [|d rest IH]; intros first; simpl; [done|].
  by rewrite IH.
Qed.

Lemma stored_from_app first literals1 literals2 :
  stored_from first (literals1 ++ literals2)
  = stored_from first literals1
    ++ stored_from (Nat.iter (length literals1) Pos.succ first) literals2.
Proof.
  revert first. induction literals1 as [|d rest IH]; intros first; simpl; [done|].
  by rewrite IH, <- Nat.iter_succ_r.
Qed.

Section CreationProperties.

Variable create_error : list Notification → NotificationData → option string.

Lemma create_accepted d db :
  create_error (notifications db) d = None →
  Notification_create create_error d db
  = (Returned {| _id := next_id db; fields := d; isRead := false; readAt := None |},
     db_after db [ {| _id := next_id db; fields := d; isRead := false; readAt := None |} ]).
Proof. intros Hok. unfold Notification_create. by rewrite Hok. Qed.

Lemma create_refused d e db :
  create_error (notifications db) d = Some e →
  Notification_create create_error d db = (Threw e, db).
Proof. intros Hno. unfold Notification_create. by rewrite Hno. Qed.

Lemma create_each_cons_accepted d rest acc db :
  create_error (notifications db) d = None →
  let n := {| _id := next_id db; fields := d; isRead := false; readAt := None |} in
  create_each create_error (d :: rest) acc db
  = create_each create_error rest (acc ++ [n]) (db_after db [n]).
Proof.
  intros Hok. simpl. unfold mbind, Handler_bind. by rewrite (create_accepted _ _ Hok).
Qed.

(** If the first [k] creates are accepted and the next one is refused with
    [e], the loop throws [e] and the [k] documents stay stored. *)
Lemma create_each_refused literals acc db k d e :
  literals !! k = Some d →
  (∀ j d', j < k → literals !! j = Some d' →
     create_error (notifications db ++ stored_from (next_id db) (take j literals)) d' = None) →
  create_error (notifications db ++ stored_from (next_id db) (take k literals)) d = Some e →
  create_each create_error literals acc db
  = (Threw e, db_after db (stored_from (next_id db) (take k literals))).
Proof.
  revert acc db k. induction literals as [|d0 rest IH]; intros acc db k Hk Hbefore Hat.
  - by rewrite lookup_nil in Hk.
  - destruct k as [|k].
    + simpl in Hk, Hat. injection Hk as ->. rewrite app_nil_r in Hat.
      simpl. unfold mbind, Handler_bind. rewrite (create_refused _ _ _ Hat).
      by rewrite db_after_nil.
    + assert (Hd0 : create_error (notifications db) d0 = None).
      { specialize (Hbefore 0 d0). simpl in Hbefore. rewrite app_nil_r in Hbefore.
        apply Hbefore; [lia | done]. }
      rewrite (create_each_cons_accepted _ _ _ _ Hd0).
      rewrite (IH _ _ k Hk).
      * by rewrite db_after_cons.
      * intros j d' Hj Hlook. specialize (Hbefore (S j) d').
        cbn [db_after notifications next_id length Nat.iter].
        rewrite <- app_assoc. apply Hbefore; [lia | done].
      * cbn [db_after notifications next_id length Nat.iter].
        rewrite <- app_assoc. exact Hat.
Qed.

(** If no create is refused, the loop stores one document per literal. *)
Lemma create_each_accepted literals acc db :
  (∀ j d', literals !! j = Some d' →
     create_error (notifications db ++ stored_from (next_id db) (take j literals)) d' = None) →
  create_each create_error literals acc db
  = (Returned (acc ++ stored_from (next_id db) literals),
     db_after db (stored_from (next_id db) literals)).
Proof.
  revert acc db. induction literals as [|d0 rest IH]; intros acc db Hall.
  - simpl. by rewrite app_nil_r, db_after_nil.
  - assert (Hd0 : create_error (notifications db) d0 = None).
    { specialize (Hall 0 d0). simpl in Hall. rewrite app_nil_r in Hall. by apply Hall. }
    rewrite (create_each_cons_accepted _ _ _ _ Hd0), IH.
    + rewrite db_after_cons, <- app_assoc. done.
    + intros j d' Hlook. specialize (Hall (S j) d').
      cbn [db_after notifications next_id length Nat.iter].
      rewrite <- app_assoc. by apply Hall.
Qed.

Lemma try_rethrow {A} (m : Handler A) db :
  try_catch m (λ e, throw e) db = m db.
Proof. unfold try_catch, throw. by destruct (m db) as [[a|e] db']. Qed.

Lemma for_students_create_each user title message type priority bus students acc db :
  for_students create_error user title message type priority bus students acc db
  = create_each create_error
      (student_notificationData user title message type priority bus <$> students) acc db.
Proof.
  revert acc db. induction students as [|student rest IH]; intros acc db; simpl; [done|].
  unfold mbind, Handler_bind. rewrite try_rethrow.
  destruct (Notification_create _ _ db) as [[n|e] db1]; [apply IH | done].
Qed.

Lemma for_targetRoles_create_each user title message type priority targetRoles acc db :
  for_targetRoles create_error user title message type priority targetRoles acc db
  = create_each create_error
      (broadcast_notificationData user title message type priority <$> targetRoles) acc db.
Proof.
  revert acc db. induction targetRoles as [|r rest IH]; intros acc db; simpl; [done|].
  unfold mbind, Handler_bind.
  destruct (Notification_create _ _ db) as [[n|e] db1]; [apply IH | done].
Qed.

Lemma create_each_app literals1 literals2 acc db :
  create_each create_error (literals1 ++ literals2) acc db
  = (created ← create_each create_error literals1 acc;
     create_each create_error literals2 created) db.
Proof.
  revert acc db. induction literals1 as [|d rest IH]; intros acc db; simpl; [done|].
  unfold mbind, Handler_bind in *.
  destruct (Notification_create _ _ db) as [[n|e] db1]; [apply IH | done].
Qed.

(** On its path through a found bus, a send to students is one run of
    creates over [students_fanout], wrapped in the handler's [try]. *)
Lemma sendTargeted_students_run user title message type priority db bus students :
  role user = "driver" →
  responded (Bus_findOne_driver (user_id user) db) = Some (Some bus) →
  responded (User_find_students (bus_id bus) db) = Some students →
  sendTargetedNotification create_error user title message type priority "students" db
  = try_catch
      (notifications ←
         create_each create_error
           (students_fanout user title message type priority bus students) [];
       mret (targeted_created "students" notifications))
      (λ error,
         mret {| status := 500; success := false;
                 res_message := Some "Failed to send notification";
                 res_error := Some error; data := no_data |}) db.
Proof.
  intros Hrole Hbus Hstudents.
  unfold responded, Bus_findOne_driver in Hbus. simpl in Hbus. injection Hbus as Hbus.
  unfold responded, User_find_students in Hstudents. simpl in Hstudents.
  injection Hstudents as Hstudents.
  unfold sendTargetedNotification.
  rewrite bool_decide_eq_false_2 by (intros Hne; by apply Hne).
  rewrite (bool_decide_eq_true_2 ("students" ∈ ["students"; "admin"])) by set_solver.
  rewrite (bool_decide_eq_true_2 ("students" = "students")) by done.
  cbn [negb]. unfold try_catch.
  unfold mbind, Handler_bind, Bus_findOne_driver, User_find_students, students_fanout.
  rewrite Hbus, Hstudents, create_each_app, for_students_create_each.
  unfold mbind, Handler_bind.
  destruct (create_each _ _ [] db) as [[created|e] db1]; [|done].
  simpl. unfold mbind, Handler_bind.
  by destruct (Notification_create _ _ db1) as [[n|e] db2].
Qed.

End CreationProperties.

Lemma stored_from_fmap_Forall2 {A} (f : A → NotificationData) first (l : list A) :
  Forall2 (λ (n : Notification) a, fields n = f a) (stored_from first (f <$> l)) l.
Proof.
  revert first. induction l as [|a l IH]; intros first; simpl; constructor; [done | apply IH].
Qed.

Lemma filter_absent {A B} `{EqDecision B} (f : A → B) (l : list A) (r : B) :
  r ∉ f <$> l → filter (λ a, f a = r) l = [].
Proof.
  induction l as [|a l IH]; [done|]. rewrite fmap_cons, not_elem_of_cons.
  intros [Hne Hnotin]. rewrite filter_cons. destruct (decide (f a = r)); [done|].
  by apply IH.
Qed.

Lemma filter_once {A B} `{EqDecision B} (f : A → B) (l : list A) (r : B) :
  NoDup (f <$> l) → r ∈ f <$> l → length (filter (λ a, f a = r) l) = 1.
Proof.
  induction l as [|a l IH]; [by intros _ ?%elem_of_nil|].
  rewrite fmap_cons, NoDup_cons, elem_of_cons. intros [Hfresh Hnodup] [->|Hin].
  - rewrite filter_cons. destruct (decide (f a = f a)); [|done].
    simpl. by rewrite filter_absent.
  - rewrite filter_cons. destruct (decide (f a = r)) as [<-|]; [done|]. by apply IH.
Qed.

(** ** The handlers that create notifications *)

(** C4: a driver whose bus carries exactly K students, sending to
    "students", gets status 201 and exactly K+1 notifications are added to
    the store: K with receiverRole "student", addressed in order to the ids
    of the K students, then one with receiverRole "all", no receiverId and
    metadata.intendedRole = "admin". K may be 0. The store is assumed to
    accept every create. *)
Theorem students_fanout_creates_K_plus_1
    (create_error : list Notification → NotificationData → option string)
    (user : User) (title message : string) (type priority : option string)
    (db : Db) (bus : Bus) (students : list User) (K : nat)
    (Hdriver : role user = "driver")
    (Hbus : responded (Bus_findOne_driver (user_id user) db) = Some (Some bus))
    (Hstudents : responded (User_find_students (bus_id bus) db) = Some students)
    (HK : length students = K)
    (Haccepts : ∀ stored d, create_error stored d = None) :
  ∃ (studentNotifications : list Notification) (adminNotification : Notification),
    sendTargetedNotification create_error user title message type priority "students" db
    = (Returned (targeted_created "students" (studentNotifications ++ [adminNotification])),
       db_after db (studentNotifications ++ [adminNotification]))
    ∧ status (targeted_created "students" (studentNotifications ++ [adminNotification])) = 201
    ∧ length studentNotifications = K
    ∧ Forall2 (λ (n : Notification) s,
                 receiverRole n = "student" ∧ receiverId n = Some (user_id s))
        studentNotifications students
    ∧ receiverRole adminNotification = "all"
    ∧ receiverId adminNotification = None
    ∧ metadata adminNotification ≫= (.!! "intendedRole") = Some (MString "admin")
    ∧ length (notifications (db_after db (studentNotifications ++ [adminNotification])))
      = length (notifications db) + (K + 1).
Proof.
  rewrite (sendTargeted_students_run _ _ _ _ _ _ _ _ _ Hdriver Hbus Hstudents).
  unfold try_catch, mbind, Handler_bind.
  rewrite create_each_accepted by (intros; apply Haccepts).
  unfold students_fanout. rewrite stored_from_app. simpl.
  eexists _, _. split; [reflexivity|]. split; [reflexivity|].
  split; [by rewrite length_stored_from, length_fmap|].
  split.
  { eapply Forall2_impl; [apply stored_from_fmap_Forall2|].
    intros n s Hn. simpl in Hn. by rewrite Hn. }
  split; [reflexivity|]. split; [reflexivity|].
  split; [simpl; by rewrite lookup_insert_eq|].
  rewrite !length_app, length_stored_from, length_fmap. simpl. lia.
Qed.

Lemma students_fanout_creates_K_plus_1_witness :
  ∃ (studentNotifications : list Notification) (adminNotification : Notification),
    sendTargetedNotification accepts_all dan "Late" "10 min" None None "students"
      (campus [sam; sue])
    = (Returned (targeted_created "students" (studentNotifications ++ [adminNotification])),
       db_after (campus [sam; sue]) (studentNotifications ++ [adminNotification]))
    ∧ length studentNotifications = 2
    ∧ receiverRole adminNotification = "all".
Proof.
  destruct (students_fanout_creates_K_plus_1 accepts_all dan "Late" "10 min" None None
              (campus [sam; sue]) bus7 [sam; sue] 2)
    as (studentNotifications & adminNotification & Hrun & _ & Hlen & _ & Hall & _).
  - reflexivity.
  - vm_compute. reflexivity.
  - vm_compute. reflexivity.
  - reflexivity.
  - reflexivity.
  - exists studentNotifications, adminNotification. split; [exact Hrun|]. split; assumption.
Defined.

(** C9 (as stated, refuted): the same send fails on two campuses, after one
    stored notification on the first and after two on the second. The two
    responses are equal: status 500, the fixed message and the error
    message of the store, with no data. Nothing in the response tells how
    many notifications were stored. *)
Lemma failure_response_hides_count :
  let run1 := sendTargetedNotification refuses_tom dan "Late" "10 min" None None
                "students" (campus [sam; tom]) in
  let run2 := sendTargetedNotification refuses_tom dan "Late" "10 min" None None
                "students" (campus [sam; sue; tom]) in
  responded run1
  = Some {| status := 500; success := false;
            res_message := Some "Failed to send notification";
            res_error := Some "E11000 duplicate key"; data := no_data |}
  ∧ responded run2 = responded run1
  ∧ length (notifications run1.2) = 1
  ∧ length (notifications run2.2) = 2.
Proof. vm_compute. repeat split. Qed.

(** C9 (amended): when, in a send to students, the first k creates are
    accepted and the next one is refused with the error message e, the
    handler answers with status 500, the fixed message "Failed to send
    notification" and e as the error, and the k notifications already
    stored stay in the store. The response does not depend on k. *)
Theorem fanout_failure_reports_error_keeps_stored
    (create_error : list Notification → NotificationData → option string)
    (user : User) (title message : string) (type priority : option string)
    (db : Db) (bus : Bus) (students : list User)
    (k : nat) (d : NotificationData) (e : string)
    (Hdriver : role user = "driver")
    (Hbus : responded (Bus_findOne_driver (user_id user) db) = Some (Some bus))
    (Hstudents : responded (User_find_students (bus_id bus) db) = Some students)
    (Hk : students_fanout user title message type priority bus students !! k = Some d)
    (Hbefore : ∀ j d', j < k →
       students_fanout user title message type priority bus students !! j = Some d' →
       create_error
         (notifications db
          ++ stored_from (next_id db)
               (take j (students_fanout user title message type priority bus students)))
         d' = None)
    (Hat : create_error
             (notifications db
              ++ stored_from (next_id db)
                   (take k (students_fanout user title message type priority bus students)))
             d = Some e) :
  let stored :=
    stored_from (next_id db)
      (take k (students_fanout user title message type priority bus students)) in
  sendTargetedNotification create_error user title message type priority "students" db
  = (Returned {| status := 500; success := false;
                 res_message := Some "Failed to send notification";
                 res_error := Some e; data := no_data |},
     db_after db stored)
  ∧ notifications (db_after db stored) = notifications db ++ stored
  ∧ length stored = k.
Proof.
  intros stored.
  rewrite (sendTargeted_students_run _ _ _ _ _ _ _ _ _ Hdriver Hbus Hstudents).
  unfold try_catch, mbind, Handler_bind.
  rewrite (create_each_refused _ _ _ _ k d e Hk Hbefore Hat).
  split; [reflexivity|]. split; [reflexivity|].
  unfold stored. rewrite length_stored_from, length_take.
  apply lookup_lt_Some in Hk. lia.
Qed.

Lemma fanout_failure_reports_error_keeps_stored_witness :
  sendTargetedNotification refuses_tom dan "Late" "10 min" None None "students"
    (campus [sam; sue; tom])
  = (Returned {| status := 500; success := false;
                 res_message := Some "Failed to send notification";
                 res_error := Some "E11000 duplicate key"; data := no_data |},
     db_after (campus [sam; sue; tom])
       (stored_from 100
          (take 2 (students_fanout dan "Late" "10 min" None None bus7 [sam; sue; tom])))).
Proof.
  refine (proj1 (fanout_failure_reports_error_keeps_stored refuses_tom dan "Late" "10 min"
                   None None (campus [sam; sue; tom]) bus7 [sam; sue; tom] 2
                   (student_notificationData dan "Late" "10 min" None None bus7 tom)
                   "E11000 duplicate key" _ _ _ _ _ _)).
  - reflexivity.
  - vm_compute. reflexivity.
  - vm_compute. reflexivity.
  - reflexivity.
  - intros j d' Hj Hlook.
    destruct j as [|[|j]]; [| |lia]; simpl in Hlook; injection Hlook as <-; reflexivity.
  - reflexivity.
Defined.

(** C7: a broadcast to a non-empty list of target roles stores exactly one
    notification per entry, in order, with receiverRole that role and no
    receiverId, and answers 201 (two roles give two notifications; when the
    list has no repetition, each role has exactly one notification); a
    broadcast whose target roles are empty or missing answers 400 and stores
    nothing. The store is assumed to accept every create; the route admits
    admins only, the handler itself does not look at the sender's role. *)
Theorem broadcast_one_notification_per_role
    (create_error : list Notification → NotificationData → option string)
    (user : User) (title message : string) (type priority : option string) (db : Db) :
  (∀ targetRoles : list string,
     targetRoles ≠ [] →
     (∀ stored d, create_error stored d = None) →
     ∃ created : list Notification,
       broadcastNotification create_error user title message type priority
         (Some targetRoles) db
       = (Returned {| status := 201; success := true;
                      res_message :=
                        Some ("Broadcast notification sent to "
                              +:+ pretty (length created) +:+ " role(s)");
                      res_error := None; data := many created |},
          db_after db created)
       ∧ length created = length targetRoles
       ∧ Forall2 (λ (n : Notification) r, receiverRole n = r ∧ receiverId n = None)
           created targetRoles
       ∧ (NoDup targetRoles → ∀ r, r ∈ targetRoles →
            length (filter (λ n : Notification, receiverRole n = r) created) = 1))
  ∧ (∀ targetRoles : option (list string),
       targetRoles = None ∨ targetRoles = Some [] →
       broadcastNotification create_error user title message type priority targetRoles db
       = (Returned {| status := 400; success := false;
                      res_message := Some "Target roles are required for broadcast";
                      res_error := None; data := no_data |},
          db)).
Proof.
  split.
  - intros targetRoles Hne Haccepts.
    exists (stored_from (next_id db)
              (broadcast_notificationData user title message type priority <$> targetRoles)).
    assert (Hfields : Forall2 (λ (n : Notification) r, receiverRole n = r ∧ receiverId n = None)
              (stored_from (next_id db)
                 (broadcast_notificationData user title message type priority <$> targetRoles))
              targetRoles).
    { eapply Forall2_impl; [apply stored_from_fmap_Forall2|].
      intros n r Hn. simpl in Hn. by rewrite Hn. }
    split; [|split; [|split]].
    + destruct targetRoles as [|r rest]; [done|].
      unfold broadcastNotification, mbind, Handler_bind.
      rewrite for_targetRoles_create_each.
      by rewrite create_each_accepted by (intros; apply Haccepts).
    + by rewrite length_stored_from, length_fmap.
    + exact Hfields.
    + intros Hnodup r Hr.
      assert (Hroles : (λ n : Notification, receiverRole n)
                       <$> stored_from (next_id db)
                             (broadcast_notificationData user title message type priority
                              <$> targetRoles) = targetRoles).
      { clear -Hfields. induction Hfields as [|n r created roles [Hn _] _ IH]; [done|].
        rewrite fmap_cons. by rewrite Hn, IH. }
      apply (filter_once (λ n : Notification, receiverRole n)); by rewrite Hroles.
  - by intros targetRoles [->| ->].
Qed.

Lemma broadcast_one_notification_per_role_witness :
  ∃ created : list Notification,
    responded (broadcastNotification accepts_all ann "Strike" "No buses" None None
                 (Some ["driver"; "student"]) (campus []))
    = Some {| status := 201; success := true;
              res_message := Some "Broadcast notification sent to 2 role(s)";
              res_error := None; data := many created |}
    ∧ length created = 2
    ∧ length (filter (λ n : Notification, receiverRole n = "student") created) = 1.
Proof.
  destruct (proj1 (broadcast_one_notification_per_role accepts_all ann "Strike" "No buses"
                     None None (campus [])) ["driver"; "student"])
    as (created & Hrun & Hlen & _ & Honce).
  - congruence.
  - reflexivity.
  - exists created. split; [|split].
    + rewrite Hrun. unfold responded. simpl. by rewrite Hlen.
    + exact Hlen.
    + apply Honce; [|rewrite !elem_of_cons; auto].
      apply NoDup_cons. split; [|apply NoDup_singleton].
      rewrite elem_of_cons. intros [Heq|Hin]; [congruence | by apply elem_of_nil in Hin].
Defined.

(** A response whose status is 400, 403 or 404 reports a refused
    precondition. *)
Ltac refused_status H :=
  simpl in H; destruct H as [H|[H|H]]; discriminate H.

Lemma sendTargeted_refusal_keeps_store
    (create_error : list Notification → NotificationData → option string)
    (user : User) (title message : string) (type priority : option string)
    (targetType : string) (db db' : Db) (res : Response) :
  sendTargetedNotification create_error user title message type priority targetType db
  = (Returned res, db') →
  status res = 400 ∨ status res = 403 ∨ status res = 404 →
  db' = db.
Proof.
  unfold sendTargetedNotification, try_catch, mbind, Handler_bind,
    Bus_findOne_driver, User_find_students.
  destruct (bool_decide (role user ≠ "driver")); [by intros [= <- <-]|].
  destruct (negb _); [by intros [= <- <-]|].
  destruct (bool_decide (targetType = "students")).
  - destruct (head _) as [bus|]; [|by intros [= <- <-]].
    destruct (for_students _ _ _ _ _ _ _ _ _ db) as [[created|e] db1];
      [|intros [= <- <-] H; refused_status H].
    destruct (Notification_create _ _ db1) as [[n|e] db2];
      intros [= <- <-] H; refused_status H.
  - destruct (bool_decide (targetType = "admin")).
    + destruct (Notification_create _ _ db) as [[n|e] db2];
        intros [= <- <-] H; refused_status H.
    + intros [= <- <-] H; refused_status H.
Qed.

Lemma createNotification_refusal_keeps_store
    (create_error : list Notification → NotificationData → option string)
    (user : User) (title message : string) (type : option string)
    (receiverRole : string) (receiverId : option ObjectId) (priority : option string)
    (relatedEntity : option RelatedEntity) (db db' : Db) (res : Response) :
  createNotification create_error user title message type receiverRole receiverId
    priority relatedEntity db = (Returned res, db') →
  status res = 400 ∨ status res = 403 ∨ status res = 404 →
  db' = db.
Proof.
  unfold createNotification, mbind, Handler_bind, User_findById.
  destruct (_ && _); [by intros [= <- <-]|].
  destruct receiverId as [rid|].
  - destruct (head _) as [receiver|]; [|by intros [= <- <-]].
    destruct (bool_decide _); [by intros [= <- <-]|].
    destruct (Notification_create _ _ db) as [[n|e] db2]; [|done].
    intros [= <- <-] H; refused_status H.
  - destruct (Notification_create _ _ db) as [[n|e] db2]; [|done].
    intros [= <- <-] H; refused_status H.
Qed.

Lemma broadcast_refusal_keeps_store
    (create_error : list Notification → NotificationData → option string)
    (user : User) (title message : string) (type priority : option string)
    (targetRoles : option (list string)) (db db' : Db) (res : Response) :
  broadcastNotification create_error user title message type priority targetRoles db
  = (Returned res, db') →
  status res = 400 ∨ status res = 403 ∨ status res = 404 →
  db' = db.
Proof.
  unfold broadcastNotification, mbind, Handler_bind.
  destruct targetRoles as [[|r rest]|]; try by intros [= <- <-].
  destruct (for_targetRoles _ _ _ _ _ _ _ _ db) as [[created|e] db1]; [|done].
  intros [= <- <-] H; refused_status H.
Qed.

(** C8: a handler that creates notifications and answers 400, 403 or 404
    leaves the database as it was. In particular a driver without a bus who
    sends to "students" gets 404 and nothing is stored, and a sender who is
    not an admin and addresses a notification to receiverRole "admin" gets
    403 and nothing is stored. *)
Theorem failed_precondition_creates_nothing
    (create_error : list Notification → NotificationData → option string)
    (user : User) (title message : string) (type priority : option string) (db : Db) :
  (role user = "driver" →
   responded (Bus_findOne_driver (user_id user) db) = Some None →
   sendTargetedNotification create_error user title message type priority "students" db
   = (Returned {| status := 404; success := false;
                  res_message := Some "No bus assigned to you";
                  res_error := None; data := no_data |},
      db))
  ∧ (role user ≠ "admin" →
     ∀ receiverId relatedEntity,
       createNotification create_error user title message type "admin" receiverId
         priority relatedEntity db
       = (Returned {| status := 403; success := false;
                      res_message := Some "Only admins can send notifications to other admins";
                      res_error := None; data := no_data |},
          db))
  ∧ (∀ res db',
       status res = 400 ∨ status res = 403 ∨ status res = 404 →
       (∀ targetType,
          sendTargetedNotification create_error user title message type priority
            targetType db = (Returned res, db') → db' = db)
       ∧ (∀ receiverRole receiverId relatedEntity,
            createNotification create_error user title message type receiverRole
              receiverId priority relatedEntity db = (Returned res, db') → db' = db)
       ∧ (∀ targetRoles,
            broadcastNotification create_error user title message type priority
              targetRoles db = (Returned res, db') → db' = db)).
Proof.
  split; [|split].
  - intros Hdriver Hbus.
    unfold responded, Bus_findOne_driver in Hbus. simpl in Hbus. injection Hbus as Hbus.
    unfold sendTargetedNotification.
    rewrite bool_decide_eq_false_2 by (intros Hne; by apply Hne).
    rewrite (bool_decide_eq_true_2 ("students" ∈ ["students"; "admin"]))
      by (rewrite !elem_of_cons; auto).
    rewrite (bool_decide_eq_true_2 ("students" = "students")) by done.
    cbn [negb]. unfold try_catch, mbind, Handler_bind, Bus_findOne_driver.
    by rewrite Hbus.
  - intros Hrole receiverId relatedEntity. unfold createNotification.
    rewrite (bool_decide_eq_true_2 ("admin" = "admin")) by done.
    by rewrite (bool_decide_eq_true_2 _ Hrole).
  - intros res db' Hstatus. split; [|split].
    + intros targetType Hrun. by eapply sendTargeted_refusal_keeps_store.
    + intros receiverRole receiverId relatedEntity Hrun.
      by eapply createNotification_refusal_keeps_store.
    + intros targetRoles Hrun. by eapply broadcast_refusal_keeps_store.
Qed.

Lemma failed_precondition_creates_nothing_witness :
  responded (Bus_findOne_driver (user_id eve) (campus [sam])) = Some None
  ∧ sendTargetedNotification accepts_all eve "Late" "10 min" None None "students"
      (campus [sam])
    = (Returned {| status := 404; success := false;
                   res_message := Some "No bus assigned to you";
                   res_error := None; data := no_data |},
       campus [sam])
  ∧ createNotification accepts_all eve "Late" "10 min" None "admin" None None None
      (campus [sam])
    = (Returned {| status := 403; success := false;
                   res_message := Some "Only admins can send notifications to other admins";
                   res_error := None; data := no_data |},
       campus [sam]).
Proof.
  destruct (failed_precondition_creates_nothing accepts_all eve "Late" "10 min" None None
              (campus [sam])) as (Hbus & Hadmin & _).
  split; [reflexivity|]. split.
  - apply Hbus; reflexivity.
  - apply Hadmin. vm_compute. congruence.
Defined.

(** C2 (as stated, refuted): the admin Ann sends a direct notification to
    the student Sam; Sue, another student, is granted access by the read
    check and reads the stored record with status 200. *)
Lemma direct_notification_visible_to_other_student :
  let run := createNotification accepts_all ann "Fee" "Pay by Friday" None
               "student" (Some (user_id sam)) None None (campus [sam; sue]) in
  role ann = "admin"
  ∧ responded run
    = Some {| status := 201; success := true;
              res_message := Some "Notification created successfully";
              res_error := None; data := one fee_note |}
  ∧ receiverRole fee_note = "student"
  ∧ receiverId fee_note = Some (user_id sam)
  ∧ role sue = "student"
  ∧ user_id sue ≠ user_id sam
  ∧ getNotification_hasAccess fee_note sue = true
  ∧ responded (getNotification sue 100 run.2)
    = Some {| status := 200; success := true; res_message := None;
              res_error := None; data := one fee_note |}.
Proof. vm_compute. repeat split; congruence. Qed.

(** C2 (amended): for the notification that an admin's direct send to the
    student S stores (receiverRole "student", receiverId S), the viewer S
    passes the read, mark-as-read and delete checks; every viewer whose role
    is "student" passes the read check, S or not, because a receiverRole
    equal to the viewer's role grants access on its own; and every driver of
    the user directory fails the read check. *)
Theorem direct_student_notification_access
    (create_error : list Notification → NotificationData → option string)
    (admin : User) (title message : string) (type priority : option string)
    (relatedEntity : option RelatedEntity) (S : ObjectId) (receiver : User) (db : Db)
    (Hadmin : role admin = "admin")
    (Hreceiver : responded (User_findById S db) = Some (Some receiver))
    (Hstudent : role receiver = "student")
    (Haccepts : ∀ stored d, create_error stored d = None) :
  ∃ n : Notification,
    createNotification create_error admin title message type "student" (Some S)
      priority relatedEntity db
    = (Returned {| status := 201; success := true;
                   res_message := Some "Notification created successfully";
                   res_error := None; data := one n |},
       db_after db [n])
    ∧ receiverRole n = "student"
    ∧ receiverId n = Some S
    ∧ (∀ V, user_id V = S →
         getNotification_hasAccess n V = true
         ∧ markAsRead_hasAccess n V = true
         ∧ deleteNotification_hasAccess n V = true)
    ∧ (∀ S2, role S2 = "student" → getNotification_hasAccess n S2 = true)
    ∧ (∀ D, role D = "driver" →
         responded (User_findById (user_id D) db) = Some (Some D) →
         getNotification_hasAccess n D = false).
Proof.
  unfold responded, User_findById in Hreceiver. simpl in Hreceiver.
  injection Hreceiver as Hreceiver.
  eexists. split; [|split; [|split; [|split; [|split]]]].
  - unfold createNotification, mbind, Handler_bind, User_findById.
    rewrite (bool_decide_eq_false_2 ("student" = "admin")) by done.
    cbn [andb]. cbv beta. rewrite Hreceiver.
    rewrite bool_decide_eq_false_2 by (intros Hne; by apply Hne).
    by rewrite create_accepted.
  - reflexivity.
  - reflexivity.
  - intros V <-.
    assert (Hid : receiverId_is
                    {| _id := next_id db;
                       fields :=
                         {| title := title; message := message;
                            type := or_default type "info";
                            senderRole := role admin; senderId := user_id admin;
                            receiverRole := "student"; receiverId := Some (user_id V);
                            priority := or_default priority "medium";
                            relatedEntity := relatedEntity; metadata := None |};
                       isRead := false; readAt := None |} (user_id V) = true).
    { apply receiverId_is_true. reflexivity. }
    unfold markAsRead_hasAccess, deleteNotification_hasAccess, getNotification_hasAccess.
    by rewrite Hid.
  - intros S2 HS2. unfold getNotification_hasAccess. simpl.
    rewrite (bool_decide_eq_true_2 ("student" = role S2)) by done.
    by rewrite orb_true_r.
  - intros D HD Hfound.
    unfold responded, User_findById in Hfound. simpl in Hfound. injection Hfound as Hfound.
    assert (Hne : S ≠ user_id D).
    { intros ->. rewrite Hfound in Hreceiver. injection Hreceiver as ->. congruence. }
    unfold getNotification_hasAccess, receiverId_is. simpl.
    rewrite (bool_decide_eq_false_2 _ Hne), HD.
    reflexivity.
Qed.

Lemma direct_student_notification_access_witness :
  ∃ n : Notification,
    responded (createNotification accepts_all ann "Fee" "Pay by Friday" None "student"
                 (Some (user_id sam)) None None (campus [sam; sue]))
    = Some {| status := 201; success := true;
              res_message := Some "Notification created successfully";
              res_error := None; data := one n |}
    ∧ getNotification_hasAccess n sam = true
    ∧ getNotification_hasAccess n sue = true
    ∧ getNotification_hasAccess n dan = false.
Proof.
  destruct (direct_student_notification_access accepts_all ann "Fee" "Pay by Friday"
              None None None (user_id sam) sam (campus [sam; sue]))
    as (n & Hrun & _ & _ & Hself & Hrole & Hdriver).
  - reflexivity.
  - vm_compute. reflexivity.
  - reflexivity.
  - reflexivity.
  - exists n. split; [by rewrite Hrun|]. split; [|split].
    + by apply Hself.
    + by apply Hrole.
    + apply Hdriver; [reflexivity | vm_compute; reflexivity].
Defined.

(** ** Listing, counting and statistics *)

Lemma listing_clauses_hasAccess (V : User) (isRead type priority : option string)
    (N : Notification) :
  existsb (clause_matches N) (f_or (getNotifications_filter V isRead type priority))
  = getNotification_hasAccess N V.
Proof.
  unfold getNotifications_filter, getNotification_hasAccess, intendedRole_is.
  rewrite receiverId_is_clause. simpl.
  case_bool_decide; simpl; rewrite ?orb_false_r, ?andb_true_r; by rewrite ?orb_assoc.
Qed.

(** X1: with any query parameters and for any viewer, admins included, the
    listing filter matches a notification exactly when the read check of
    [getNotification] grants it and the notification agrees with the
    parameters that are set: the list never shows what a single read would
    refuse. *)
Theorem listing_filter_is_read_check_and_parameters
    (V : User) (q_isRead q_type q_priority : option string) (N : Notification) :
  matches (getNotifications_filter V q_isRead q_type q_priority) N
  = getNotification_hasAccess N V
    && field_matches ((λ s, bool_decide (s = "true")) <$> q_isRead) (isRead N)
    && field_matches (truthy q_type) (type N)
    && field_matches (truthy q_priority) (priority N).
Proof.
  unfold matches. by rewrite listing_clauses_hasAccess.
Qed.

(** The bulk filter matches the unread notifications that the read check
    grants. *)
Lemma markAllAsRead_filter_hasAccess (V : User) (N : Notification) :
  matches (markAllAsRead_filter V) N = getNotification_hasAccess N V && negb (isRead N).
Proof.
  unfold matches.
  change (f_or (markAllAsRead_filter V))
    with (f_or (getNotifications_filter V None None None)).
  rewrite listing_clauses_hasAccess. simpl. rewrite !andb_true_r.
  f_equal. by destruct (isRead N).
Qed.

Lemma length_filter_split {A} (p q : A → bool) (l : list A) :
  length (List.filter (λ a, p a && q a) l) + length (List.filter (λ a, p a && negb (q a)) l)
  = length (List.filter p l).
Proof.
  induction l as [|a l IH]; [done|]. simpl.
  destruct (p a), (q a); simpl; lia.
Qed.

(** X2: the [unreadCount] of the listing does not depend on the [isRead]
    query parameter, because the spread [{ ...filter, isRead: false }]
    overwrites it. With [isRead=true] the listing therefore reports a
    [total] of read notifications beside an [unreadCount] of other
    notifications, the two adding up to the [total] without the parameter;
    with any other value of [isRead], [total] and [unreadCount] agree. *)
Theorem unreadCount_ignores_isRead_parameter
    (user : User) (q_type q_priority : option string) (db : Db) :
  ∃ total unreadCount : nat,
    responded (getNotifications_counts user None q_type q_priority db)
    = Some (total, unreadCount)
    ∧ (unreadCount ≤ total)%nat
    ∧ responded (getNotifications_counts user (Some "true") q_type q_priority db)
      = Some (total - unreadCount, unreadCount)
    ∧ ∀ s, s ≠ "true" →
        responded (getNotifications_counts user (Some s) q_type q_priority db)
        = Some (unreadCount, unreadCount).
Proof.
  set (base := λ n : Notification,
         getNotification_hasAccess n user
         && field_matches (truthy q_type) (type n)
         && field_matches (truthy q_priority) (priority n)).
  assert (Hunread : ∀ q_isRead (n : Notification),
            matches {| f_or := f_or (getNotifications_filter user q_isRead q_type q_priority);
                       f_isRead := Some false;
                       f_type := f_type (getNotifications_filter user q_isRead q_type q_priority);
                       f_priority :=
                         f_priority (getNotifications_filter user q_isRead q_type q_priority) |} n
            = base n && negb (isRead n)).
  { intros q_isRead n. unfold matches, base. cbn [f_or f_isRead f_type f_priority].
    rewrite listing_clauses_hasAccess. simpl.
    destruct (isRead n), (getNotification_hasAccess n user),
      (field_matches (truthy q_type) (type n)),
      (field_matches (truthy q_priority) (priority n)); reflexivity. }
  assert (Hall : ∀ n : Notification,
            matches (getNotifications_filter user None q_type q_priority) n = base n).
  { intros n. unfold matches. rewrite listing_clauses_hasAccess. unfold base. simpl.
    by rewrite andb_true_r. }
  assert (Hread : ∀ n : Notification,
            matches (getNotifications_filter user (Some "true") q_type q_priority) n
            = base n && isRead n).
  { intros n. unfold matches. rewrite listing_clauses_hasAccess. unfold base. simpl.
    destruct (isRead n), (getNotification_hasAccess n user),
      (field_matches (truthy q_type) (type n)),
      (field_matches (truthy q_priority) (priority n)); reflexivity. }
  assert (Hother : ∀ s (n : Notification), s ≠ "true" →
            matches (getNotifications_filter user (Some s) q_type q_priority) n
            = base n && negb (isRead n)).
  { intros s n Hs. unfold matches. rewrite listing_clauses_hasAccess. unfold base. simpl.
    rewrite (bool_decide_eq_false_2 _ Hs).
    destruct (isRead n), (getNotification_hasAccess n user),
      (field_matches (truthy q_type) (type n)),
      (field_matches (truthy q_priority) (priority n)); reflexivity. }
  pose proof (length_filter_split base isRead (notifications db)) as Hsplit.
  exists (length (List.filter base (notifications db))),
         (length (List.filter (λ n, base n && negb (isRead n)) (notifications db))).
  unfold getNotifications_counts, responded, mbind, Handler_bind, Notification_countDocuments.
  cbn [fst snd mret Handler_ret].
  split; [|split; [lia|split]].
  - do 3 f_equal.
    + apply List.filter_ext. exact Hall.
    + apply List.filter_ext. apply Hunread.
  - do 3 f_equal.
    + rewrite (List.filter_ext _ _ Hread). lia.
    + apply List.filter_ext. apply Hunread.
  - intros s Hs. do 3 f_equal.
    + apply List.filter_ext. intros n. by apply Hother.
    + apply List.filter_ext. apply Hunread.
Qed.

Lemma unreadCount_ignores_isRead_parameter_witness :
  responded (getNotifications_counts dan None None None sample_db) = Some (2, 1)
  ∧ responded (getNotifications_counts dan (Some "true") None None sample_db) = Some (1, 1)
  ∧ responded (getNotifications_counts dan (Some "yes") None None sample_db) = Some (1, 1).
Proof.
  destruct (unreadCount_ignores_isRead_parameter dan None None sample_db)
    as (total & unreadCount & Hall & _ & Hread & Hother).
  assert (Htotal : total = 2 ∧ unreadCount = 1).
  { vm_compute in Hall. by injection Hall as <- <-. }
  destruct Htotal as [-> ->].
  split; [exact Hall|]. split; [exact Hread|]. apply Hother. congruence.
Defined.

(** What the counting loop leaves under one key: what was there before if
    the key is an inherited name or no item has the key, otherwise the
    bucket found there, raised by the items with that key. *)
Lemma count_items_lookup (key : Notification → string) (items : list Notification)
    (counts : gmap string Bucket) (k : string) :
  foldl (λ counts (n : Notification), count_item (key n) (isRead n) counts) counts items !! k
  = if bool_decide (k ∈ Object_prototype_names) then counts !! k
    else
      match List.filter (λ n, bool_decide (key n = k)) items with
      | [] => counts !! k
      | with_key =>
          let b := default {| total := 0; unread := 0 |} (counts !! k) in
          Some {| total := total b + length with_key;
                  unread := unread b
                            + length (List.filter (λ n : Notification, negb (isRead n))
                                        with_key) |}
      end.
Proof.
  revert counts. induction items as [|n items IH]; intros counts;
    [by destruct (bool_decide _)|].
  cbn [foldl List.filter]. rewrite IH. clear IH. unfold count_item.
  destruct (decide (key n ∈ Object_prototype_names)) as [Hn|Hn].
  - rewrite (bool_decide_eq_true_2 _ Hn).
    destruct (decide (k ∈ Object_prototype_names)) as [Hk|Hk].
    + by rewrite (bool_decide_eq_true_2 _ Hk).
    + rewrite (bool_decide_eq_false_2 _ Hk).
      rewrite (bool_decide_eq_false_2 (key n = k)); [done|]. by intros <-.
  - rewrite (bool_decide_eq_false_2 _ Hn).
    destruct (decide (k ∈ Object_prototype_names)) as [Hk|Hk].
    + rewrite (bool_decide_eq_true_2 _ Hk).
      rewrite lookup_insert_ne; [done|]. intros Heq. by rewrite Heq in Hn.
    + rewrite (bool_decide_eq_false_2 _ Hk).
      destruct (decide (key n = k)) as [<-|Hne].
      * rewrite (bool_decide_eq_true_2 (key n = key n)) by done.
        rewrite lookup_insert_eq.
        destruct (List.filter _ items) as [|m with_key];
          destruct (isRead n); simpl; do 2 f_equal; lia.
      * rewrite (bool_decide_eq_false_2 _ Hne). by rewrite lookup_insert_ne.
Qed.

(** X3: in the statistics, a type (a priority) that is a name inherited from
    [Object.prototype], such as "constructor", never has a bucket; the
    bucket of any other type (priority) is absent when no matched
    notification has that type (priority), and otherwise holds the number
    of matched notifications of that type (priority) as [total] and the
    number of unread ones among them as [unread]. The overall [unread]
    never exceeds the overall [total], and both count the notifications
    with an inherited name too. *)
Theorem stats_buckets_count_matched (user : User) (db : Db) :
  ∃ stats : Stats,
    responded (getNotificationStats user db) = Some stats
    ∧ (stats_unread stats ≤ stats_total stats)%nat
    ∧ stats_total stats
      = length (List.filter (matches (getNotificationStats_filter user)) (notifications db))
    ∧ ∀ k : string,
        let matched := List.filter (matches (getNotificationStats_filter user))
                         (notifications db) in
        let bucket_of (with_key : list Notification) :=
          if bool_decide (k ∈ Object_prototype_names) then None
          else
            match with_key with
            | [] => None
            | _ => Some {| total := length with_key;
                           unread := length (List.filter (λ n : Notification, negb (isRead n))
                                               with_key) |}
            end in
        byType stats !! k
        = bucket_of (List.filter (λ n : Notification, bool_decide (type n = k)) matched)
        ∧ byPriority stats !! k
          = bucket_of (List.filter (λ n : Notification, bool_decide (priority n = k)) matched).
Proof.
  eexists. split; [reflexivity|]. split; [|split; [reflexivity|]].
  - cbn [stats_unread stats_total]. apply List.filter_length_le.
  - intros k. cbn [byType byPriority]. split.
    + rewrite (count_items_lookup (λ n : Notification, type n)).
      destruct (bool_decide _); [done|]. by destruct (List.filter _ _).
    + rewrite (count_items_lookup (λ n : Notification, priority n)).
      destruct (bool_decide _); [done|]. by destruct (List.filter _ _).
Qed.

Lemma filter_filter_andb {A} (p q : A → bool) (l : list A) :
  List.filter q (List.filter p l) = List.filter (λ a, p a && q a) l.
Proof.
  induction l as [|a l IH]; [done|]. simpl.
  destruct (p a); simpl; [destruct (q a)|]; by rewrite IH.
Qed.

(** X4: for a viewer who is not an admin, and for every viewer when the
    admin tag is stored only on records with receiverRole "all", the
    statistics report the same [total] and [unread] as the listing without
    query parameters. *)
Theorem stats_agree_with_listing (V : User) (db : Db)
    (Hsame : role V ≠ "admin" ∨ tag_only_on_all (notifications db)) :
  ∃ total unreadCount : nat,
    responded (getNotifications_counts V None None None db) = Some (total, unreadCount)
    ∧ stats_total <$> responded (getNotificationStats V db) = Some total
    ∧ stats_unread <$> responded (getNotificationStats V db) = Some unreadCount.
Proof.
  assert (Hpoint : ∀ n : Notification, In n (notifications db) →
            matches (getNotificationStats_filter V) n
            = matches (getNotifications_filter V None None None) n).
  { intros n Hn. destruct Hsame as [Hrole|Htag].
    - by apply stats_filter_listing_non_admin.
    - apply stats_filter_listing_tagged_all. intros Htagged.
      apply list_elem_of_In in Hn. by apply (Htag n Hn). }
  eexists _, _. split; [reflexivity|].
  unfold responded, getNotificationStats, mbind, Handler_bind, Notification_find.
  cbn [fst snd mret Handler_ret fmap option_fmap option_map stats_total stats_unread].
  split; f_equal.
  - f_equal. by apply List.filter_ext_in.
  - rewrite filter_filter_andb. f_equal. apply List.filter_ext_in.
    intros n Hn. rewrite (Hpoint n Hn). unfold matches. simpl.
    rewrite !andb_true_r. f_equal. by destruct (isRead n).
Qed.

Lemma stats_agree_with_listing_witness :
  ∃ total unreadCount : nat,
    responded (getNotifications_counts ann None None None sample_db)
    = Some (total, unreadCount)
    ∧ stats_total <$> responded (getNotificationStats ann sample_db) = Some total
    ∧ stats_unread <$> responded (getNotificationStats ann sample_db) = Some unreadCount.
Proof.
  apply (stats_agree_with_listing ann sample_db). right.
  intros n Hn Htag. apply list_elem_of_In in Hn. simpl in Hn.
  destruct Hn as [<-|[<-|[<-|[]]]]; [discriminate Htag | by split | discriminate Htag].
Defined.

(** ** Bulk mark-as-read *)

Lemma hasAccess_set_read (now : nat) (n : Notification) (V : User) :
  getNotification_hasAccess (set_read now n) V = getNotification_hasAccess n V.
Proof. reflexivity. Qed.

(** What one call of [markAllAsRead] does, in terms of the read check. *)
Lemma markAllAsRead_run (user : User) (now : nat) (db : Db) :
  markAllAsRead user now db
  = (Returned
       {| status := 200; success := true;
          res_message :=
            Some (pretty (length (List.filter
                                    (λ n, getNotification_hasAccess n user && negb (isRead n))
                                    (notifications db)))
                  +:+ " notifications marked as read");
          res_error := None; data := no_data |},
     {| users := users db; buses := buses db;
        notifications :=
          (λ n, if getNotification_hasAccess n user && negb (isRead n)
                then set_read now n else n) <$> notifications db;
        next_id := next_id db |}).
Proof.
  assert (Hcount :
    List.filter (λ n, bool_decide (set_read now n ≠ n))
      (List.filter (matches (markAllAsRead_filter user)) (notifications db))
    = List.filter (λ n, getNotification_hasAccess n user && negb (isRead n))
        (notifications db)).
  { rewrite filter_filter_andb. apply List.filter_ext.
    intros n. rewrite markAllAsRead_filter_hasAccess.
    destruct (getNotification_hasAccess n user), (isRead n) eqn:Hread; try reflexivity.
    cbn [andb negb]. apply bool_decide_eq_true_2.
    intros Heq. apply (f_equal isRead) in Heq. simpl in Heq. congruence. }
  assert (Hmap :
    (λ n, if matches (markAllAsRead_filter user) n then set_read now n else n)
      <$> notifications db
    = (λ n, if getNotification_hasAccess n user && negb (isRead n)
            then set_read now n else n) <$> notifications db).
  { apply list_fmap_ext. intros i n _. by rewrite markAllAsRead_filter_hasAccess. }
  unfold markAllAsRead, mbind, Handler_bind, Notification_updateMany.
  by rewrite Hcount, Hmap.
Qed.

Lemma length_filter_fmap_invariant {A} (p : A → bool) (g : A → A) (l : list A) :
  (∀ a, p (g a) = p a) →
  length (List.filter p (g <$> l)) = length (List.filter p l).
Proof.
  intros Hp. induction l as [|a l IH]; [done|].
  rewrite fmap_cons. cbn [List.filter]. rewrite Hp.
  destruct (p a); cbn [length]; by rewrite IH.
Qed.

Lemma filter_none {A} (p : A → bool) (l : list A) :
  (∀ a, a ∈ l → p a = false) → List.filter p l = [].
Proof.
  induction l as [|a l IH]; [done|]. intros Hp. simpl.
  rewrite (Hp a) by apply list_elem_of_here.
  apply IH. intros b Hb. apply Hp. by apply list_elem_of_further.
Qed.

(** X5: [markAllAsRead] answers 200 with the number of notifications it
    marked, which is the [unreadCount] the listing showed before the call;
    afterwards every stored notification that the viewer may read is read,
    and the listing shows the same [total] with [unreadCount] 0. *)
Theorem markAllAsRead_clears_unread (user : User) (now : nat) (db : Db) :
  ∃ (total unreadCount : nat) (db' : Db),
    responded (getNotifications_counts user None None None db) = Some (total, unreadCount)
    ∧ markAllAsRead user now db
      = (Returned {| status := 200; success := true;
                     res_message :=
                       Some (pretty unreadCount +:+ " notifications marked as read");
                     res_error := None; data := no_data |},
         db')
    ∧ (∀ n : Notification,
         n ∈ notifications db' → getNotification_hasAccess n user = true → isRead n = true)
    ∧ responded (getNotifications_counts user None None None db') = Some (total, 0).
Proof.
  set (unread := λ n : Notification, getNotification_hasAccess n user && negb (isRead n)).
  set (mark := λ n : Notification, if unread n then set_read now n else n).
  assert (Hmarked : ∀ n, unread (mark n) = false).
  { intros n. unfold mark, unread. destruct (getNotification_hasAccess n user) eqn:Hacc;
      destruct (isRead n) eqn:Hread; simpl; rewrite ?hasAccess_set_read, ?Hacc, ?Hread;
      simpl; by rewrite ?andb_false_r. }
  assert (Haccess : ∀ n, getNotification_hasAccess (mark n) user
                         = getNotification_hasAccess n user).
  { intros n. unfold mark. by destruct (unread n). }
  assert (Hlisting : ∀ n : Notification,
            matches (getNotifications_filter user None None None) n
            = getNotification_hasAccess n user).
  { intros n. unfold matches. rewrite listing_clauses_hasAccess. simpl.
    by rewrite !andb_true_r. }
  assert (Hunread : ∀ n : Notification,
            matches {| f_or := f_or (getNotifications_filter user None None None);
                       f_isRead := Some false;
                       f_type := f_type (getNotifications_filter user None None None);
                       f_priority := f_priority (getNotifications_filter user None None None) |} n
            = unread n).
  { intros n. exact (markAllAsRead_filter_hasAccess user n). }
  eexists _, _, _. split; [reflexivity|]. split; [|split].
  - rewrite markAllAsRead_run, (List.filter_ext _ _ Hunread). reflexivity.
  - cbn [notifications]. intros n [m [-> _]]%list_elem_of_fmap Hacc.
    fold (unread m) in *. fold (mark m) in *.
    specialize (Hmarked m). unfold unread in Hmarked at 1. rewrite Hacc in Hmarked.
    by destruct (isRead (mark m)).
  - unfold getNotifications_counts, responded, mbind, Handler_bind,
      Notification_countDocuments.
    cbn [fst snd mret Handler_ret notifications]. do 2 f_equal.
    + rewrite !(List.filter_ext _ _ Hlisting).
      by apply (length_filter_fmap_invariant (λ n, getNotification_hasAccess n user) mark).
    + rewrite (List.filter_ext _ _ Hunread). rewrite filter_none; [done|].
      intros n [m [-> _]]%list_elem_of_fmap. apply Hmarked.
Qed.

(** X6: [markAllAsRead] keeps the number and order of the stored
    notifications and the id and created fields of each; a notification
    that was already read, or that the viewer may not read, is left as it
    is, [readAt] included; each other one becomes read with [readAt] set to
    the time of the call. Users, buses and the next id are untouched. *)
Theorem markAllAsRead_touches_only_unread_readable (user : User) (now : nat) (db : Db) :
  let db' := (markAllAsRead user now db).2 in
  users db' = users db ∧ buses db' = buses db ∧ next_id db' = next_id db
  ∧ Forall2
      (λ (n' n : Notification),
         _id n' = _id n ∧ fields n' = fields n
         ∧ (if getNotification_hasAccess n user && negb (isRead n)
            then isRead n' = true ∧ readAt n' = Some now
            else n' = n))
      (notifications db') (notifications db).
Proof.
  rewrite markAllAsRead_run. cbn [snd users buses next_id notifications].
  split; [done|]. split; [done|]. split; [done|].
  rewrite Forall2_fmap_l. apply Forall_Forall2_diag. rewrite Forall_forall.
  intros n _. simpl.
  by destruct (getNotification_hasAccess n user && negb (isRead n)).
Qed.

(** X7: a second [markAllAsRead] by the same viewer, at any later time,
    reports 0 and leaves the database as the first call left it. *)
Theorem markAllAsRead_twice (user : User) (now later : nat) (db : Db) :
  markAllAsRead user later (markAllAsRead user now db).2
  = (Returned {| status := 200; success := true;
                 res_message := Some "0 notifications marked as read";
                 res_error := None; data := no_data |},
     (markAllAsRead user now db).2).
Proof.
  rewrite (markAllAsRead_run user later), (markAllAsRead_run user now).
  cbn [snd users buses next_id notifications].
  assert (Hnone : ∀ n : Notification,
            getNotification_hasAccess
              (if getNotification_hasAccess n user && negb (isRead n)
               then set_read now n else n) user
            && negb (isRead (if getNotification_hasAccess n user && negb (isRead n)
                             then set_read now n else n)) = false).
  { intros n. destruct (getNotification_hasAccess n user) eqn:Hacc;
      destruct (isRead n) eqn:Hread; simpl; rewrite ?hasAccess_set_read, ?Hacc, ?Hread;
      simpl; by rewrite ?andb_false_r. }
  f_equal.
  - rewrite filter_none; [done|].
    intros n [m [-> _]]%list_elem_of_fmap. apply Hnone.
  - f_equal. rewrite <- list_fmap_compose. apply list_fmap_ext.
    intros i n _. simpl. by rewrite Hnone.
Qed.

(** ** Reading, marking and deleting one notification *)

Lemma findById_found (id : ObjectId) (db : Db) (found : option Notification) :
  responded (Notification_findById id db) = Some found →
  head (filter (λ n : Notification, _id n = id) (notifications db)) = found.
Proof. unfold responded, Notification_findById. simpl. by intros [= ->]. Qed.

Lemma findById_after_delete (id id' : ObjectId) (stored : list Notification) :
  head (filter (λ n : Notification, _id n = id')
          (filter (λ n : Notification, _id n ≠ id) stored))
  = if decide (id' = id) then None
    else head (filter (λ n : Notification, _id n = id') stored).
Proof.
  destruct (decide (id' = id)) as [->|Hne].
  - apply head_None. rewrite list_filter_filter.
    induction stored as [|n stored IH]; [done|].
    rewrite filter_cons. destruct (decide _) as [[? ?]|_]; [done | exact IH].
  - f_equal. apply list_filter_filter_l. intros n ->. done.
Qed.

(** X8: for an id under which nothing is stored, [getNotification],
    [markAsRead] and [deleteNotification] answer 404 whoever asks, an admin
    included; for a stored notification that the handler's check refuses
    they answer 403. In both cases the database is unchanged. *)
Theorem read_side_refusals (user : User) (id : ObjectId) (now : nat) (db : Db) :
  (responded (Notification_findById id db) = Some None →
     status <$> responded (getNotification user id db) = Some 404
     ∧ (getNotification user id db).2 = db
     ∧ status <$> responded (markAsRead user id now db) = Some 404
     ∧ (markAsRead user id now db).2 = db
     ∧ status <$> responded (deleteNotification user id db) = Some 404
     ∧ (deleteNotification user id db).2 = db)
  ∧ (∀ N : Notification,
       responded (Notification_findById id db) = Some (Some N) →
       (getNotification_hasAccess N user = false →
          status <$> responded (getNotification user id db) = Some 403
          ∧ (getNotification user id db).2 = db
          ∧ status <$> responded (markAsRead user id now db) = Some 403
          ∧ (markAsRead user id now db).2 = db)
       ∧ (deleteNotification_hasAccess N user = false →
            status <$> responded (deleteNotification user id db) = Some 403
            ∧ (deleteNotification user id db).2 = db)).
Proof.
  split.
  - intros Hnone%findById_found.
    unfold getNotification, markAsRead, deleteNotification, responded, mbind, Handler_bind,
      Notification_findById.
    by rewrite Hnone.
  - intros N Hfound%findById_found. split; intros Hacc.
    + unfold getNotification, markAsRead, responded, mbind, Handler_bind,
        Notification_findById.
      rewrite Hfound.
      change (markAsRead_hasAccess N user) with (getNotification_hasAccess N user).
      by rewrite Hacc.
    + unfold deleteNotification, responded, mbind, Handler_bind, Notification_findById.
      by rewrite Hfound, Hacc.
Qed.

Lemma read_side_refusals_witness :
  status <$> responded (getNotification dan 100 sample_db) = Some 403
  ∧ status <$> responded (deleteNotification dan 100 sample_db) = Some 403
  ∧ status <$> responded (deleteNotification ann 999 sample_db) = Some 404.
Proof.
  destruct (read_side_refusals dan 100 0 sample_db) as [_ Hrefused].
  destruct (Hrefused fee_note) as [Hread Hdelete]; [reflexivity|].
  destruct (read_side_refusals ann 999 0 sample_db) as [Hmissing _].
  split; [apply Hread; reflexivity|]. split; [apply Hdelete; reflexivity|].
  apply Hmissing. reflexivity.
Defined.

(** X9: an admin who is not the receiver of a stored notification whose
    receiverRole is neither "admin" nor "all" and which carries no admin
    tag can neither read it nor mark it as read (403, nothing changes), but
    can delete it: the delete handler answers 200 and removes it. *)
Theorem admin_deletes_what_admin_cannot_read
    (A : User) (id : ObjectId) (N : Notification) (now : nat) (db : Db)
    (Hadmin : role A = "admin")
    (Hfound : responded (Notification_findById id db) = Some (Some N))
    (Hrole : receiverRole N ≠ "admin")
    (Hall : receiverRole N ≠ "all")
    (Hreceiver : receiverId N ≠ Some (user_id A))
    (Htag : intendedRole_is N "admin" = false) :
  status <$> responded (getNotification A id db) = Some 403
  ∧ markAsRead A id now db
    = (Returned {| status := 403; success := false;
                   res_message := Some "Access denied to this notification";
                   res_error := None; data := no_data |},
       db)
  ∧ ∃ db', deleteNotification A id db
           = (Returned {| status := 200; success := true;
                          res_message := Some "Notification deleted successfully";
                          res_error := None; data := no_data |},
              db')
           ∧ N ∉ notifications db'.
Proof.
  apply findById_found in Hfound.
  assert (Hid : receiverId_is N (user_id A) = false).
  { apply not_true_is_false. by rewrite receiverId_is_true. }
  assert (Hview : getNotification_hasAccess N A = false).
  { unfold getNotification_hasAccess. rewrite Hid, Hadmin, Htag.
    rewrite (bool_decide_eq_false_2 _ Hrole), (bool_decide_eq_false_2 _ Hall). done. }
  assert (Hdelete : deleteNotification_hasAccess N A = true).
  { unfold deleteNotification_hasAccess.
    rewrite (bool_decide_eq_true_2 _ Hadmin). by rewrite orb_true_r. }
  unfold getNotification, markAsRead, deleteNotification, responded, mbind, Handler_bind,
    Notification_findById.
  rewrite Hfound.
  change (markAsRead_hasAccess N A) with (getNotification_hasAccess N A).
  rewrite Hview, Hdelete. simpl.
  split; [done|]. split; [done|].
  eexists. split; [reflexivity|]. simpl.
  intros [Hne _]%list_elem_of_filter.
  apply head_Some_elem_of, list_elem_of_filter in Hfound. by destruct Hfound.
Qed.

Lemma admin_deletes_what_admin_cannot_read_witness :
  status <$> responded (getNotification ann 100 sample_db) = Some 403
  ∧ status <$> responded (deleteNotification ann 100 sample_db) = Some 200.
Proof.
  destruct (admin_deletes_what_admin_cannot_read ann 100 fee_note 0 sample_db)
    as (Hread & _ & db' & Hdelete & _);
    [reflexivity | reflexivity | vm_compute; congruence | vm_compute; congruence
    | vm_compute; congruence | reflexivity |].
  split; [exact Hread | by rewrite Hdelete].
Defined.

(** X10: once [deleteNotification] has accepted a delete, nothing is stored
    under that id any more: reading, marking and deleting it again answer
    404 for every viewer; what is stored under any other id is found as
    before, and users, buses and the next id are unchanged. *)
Theorem deleted_notification_is_gone
    (user : User) (id : ObjectId) (N : Notification) (db : Db)
    (Hfound : responded (Notification_findById id db) = Some (Some N))
    (Hallowed : deleteNotification_hasAccess N user = true) :
  ∃ db',
    deleteNotification user id db
    = (Returned {| status := 200; success := true;
                   res_message := Some "Notification deleted successfully";
                   res_error := None; data := no_data |},
       db')
    ∧ (∀ (V : User) (now : nat),
         status <$> responded (getNotification V id db') = Some 404
         ∧ status <$> responded (markAsRead V id now db') = Some 404
         ∧ status <$> responded (deleteNotification V id db') = Some 404)
    ∧ (∀ id', id' ≠ id →
         responded (Notification_findById id' db')
         = responded (Notification_findById id' db))
    ∧ users db' = users db ∧ buses db' = buses db ∧ next_id db' = next_id db.
Proof.
  apply findById_found in Hfound.
  eexists. split.
  { unfold deleteNotification, mbind, Handler_bind, Notification_findById.
    rewrite Hfound, Hallowed. reflexivity. }
  split; [|split; [|done]].
  - intros V now.
    unfold getNotification, markAsRead, deleteNotification, responded, mbind, Handler_bind,
      Notification_findById.
    cbn [notifications]. rewrite findById_after_delete.
    destruct (decide (id = id)); done.
  - intros id' Hne. unfold responded, Notification_findById. cbn [fst notifications].
    rewrite findById_after_delete. by destruct (decide (id' = id)).
Qed.

Lemma deleted_notification_is_gone_witness :
  ∃ db',
    responded (deleteNotification sam 100 sample_db)
    = Some {| status := 200; success := true;
              res_message := Some "Notification deleted successfully";
              res_error := None; data := no_data |}
    ∧ (deleteNotification sam 100 sample_db).2 = db'
    ∧ status <$> responded (getNotification sam 100 db') = Some 404.
Proof.
  destruct (deleted_notification_is_gone sam 100 fee_note sample_db)
    as (db' & Hrun & Hgone & _); [reflexivity | reflexivity |].
  exists db'. rewrite Hrun. split; [done|]. split; [done|].
  exact (proj1 (Hgone sam 0)).
Defined.

(** ** Direct notifications *)

(** X11: [createNotification] with a receiver id, from a sender allowed to
    address the role, answers 404 when the user directory has no user with
    that id and 400 when the user found there holds another role than the
    one named; in both cases nothing is stored. *)
Theorem createNotification_checks_receiver
    (create_error : list Notification → NotificationData → option string)
    (user : User) (title message : string) (type priority : option string)
    (receiverRole : string) (rid : ObjectId) (relatedEntity : option RelatedEntity)
    (db : Db)
    (Hallowed : receiverRole ≠ "admin" ∨ role user = "admin") :
  (responded (User_findById rid db) = Some None →
     createNotification create_error user title message type receiverRole (Some rid)
       priority relatedEntity db
     = (Returned {| status := 404; success := false;
                    res_message := Some "Receiver not found";
                    res_error := None; data := no_data |},
        db))
  ∧ (∀ receiver : User,
       responded (User_findById rid db) = Some (Some receiver) →
       role receiver ≠ receiverRole →
       createNotification create_error user title message type receiverRole (Some rid)
         priority relatedEntity db
       = (Returned {| status := 400; success := false;
                      res_message := Some "Receiver role does not match specified role";
                      res_error := None; data := no_data |},
          db)).
Proof.
  assert (Hgate : bool_decide (receiverRole = "admin") && bool_decide (role user ≠ "admin")
                  = false).
  { destruct Hallowed as [Hne|Hadmin].
    - by rewrite (bool_decide_eq_false_2 _ Hne).
    - rewrite (bool_decide_eq_false_2 (role user ≠ "admin")) by (intros Hne; by apply Hne).
      by rewrite andb_false_r. }
  split.
  - intros Hnone. unfold responded, User_findById in Hnone. simpl in Hnone.
    injection Hnone as Hnone.
    unfold createNotification, mbind, Handler_bind, User_findById.
    by rewrite Hgate, Hnone.
  - intros receiver Hfound Hrole. unfold responded, User_findById in Hfound.
    simpl in Hfound. injection Hfound as Hfound.
    unfold createNotification, mbind, Handler_bind, User_findById.
    by rewrite Hgate, Hfound, (bool_decide_eq_true_2 _ Hrole).
Qed.

Lemma createNotification_checks_receiver_witness :
  status <$> responded (createNotification accepts_all ann "Fee" "Pay by Friday" None
                          "student" (Some 77%positive) None None sample_db) = Some 404
  ∧ status <$> responded (createNotification accepts_all ann "Fee" "Pay by Friday" None
                            "student" (Some (user_id dan)) None None sample_db) = Some 400.
Proof.
  split.
  - destruct (createNotification_checks_receiver accepts_all ann "Fee" "Pay by Friday"
                None None "student" 77 None sample_db) as [Hmissing _];
      [left; congruence|].
    rewrite Hmissing; reflexivity.
  - destruct (createNotification_checks_receiver accepts_all ann "Fee" "Pay by Friday"
                None None "student" (user_id dan) None sample_db) as [_ Hrole];
      [left; congruence|].
    rewrite (Hrole dan); [reflexivity | reflexivity | vm_compute; congruence].
Defined.

(** X12: whenever [createNotification] answers 201, exactly one notification
    has been added, with the sender's id and role and without the admin tag;
    if it names a receiver, the user directory holds a user with that id
    whose role is the receiverRole stored; if its receiverRole is "admin",
    the sender is an admin. *)
Theorem createNotification_stores_validated
    (create_error : list Notification → NotificationData → option string)
    (user : User) (title message : string) (type priority : option string)
    (to_role : string) (to_id : option ObjectId)
    (relatedEntity : option RelatedEntity) (db db' : Db) (res : Response)
    (Hrun : createNotification create_error user title message type to_role
              to_id priority relatedEntity db = (Returned res, db'))
    (Hcreated : status res = 201) :
  ∃ n : Notification,
    data res = one n
    ∧ db' = db_after db [n]
    ∧ senderId n = user_id user ∧ senderRole n = role user
    ∧ receiverRole n = to_role ∧ receiverId n = to_id
    ∧ intendedRole_is n "admin" = false
    ∧ (∀ rid, to_id = Some rid →
         ∃ receiver : User,
           receiver ∈ users db ∧ user_id receiver = rid ∧ role receiver = to_role)
    ∧ (to_role = "admin" → role user = "admin").
Proof.
  revert Hrun.
  unfold createNotification, mbind, Handler_bind, User_findById, mret, Handler_ret.
  destruct (bool_decide (to_role = "admin") && bool_decide (role user ≠ "admin")) eqn:Hgate;
    [intros [= <- <-]; discriminate Hcreated|].
  assert (Hadmin : to_role = "admin" → role user = "admin").
  { intros Hto. rewrite (bool_decide_eq_true_2 _ Hto) in Hgate. simpl in Hgate.
    apply bool_decide_eq_false in Hgate. by destruct (decide (role user = "admin")). }
  assert (Hstore : ∀ d,
    (let (o, db1) := Notification_create create_error d db in
     match o with
     | Returned a =>
         (Returned {| status := 201; success := true;
                      res_message := Some "Notification created successfully";
                      res_error := None; data := one a |}, db1)
     | Threw e => (Threw e, db1)
     end) = (Returned res, db') →
    ∃ n : Notification, data res = one n ∧ db' = db_after db [n]
                        ∧ fields n = d ∧ isRead n = false).
  { intros d. unfold Notification_create.
    destruct (create_error (notifications db) d); [done|].
    intros [= <- <-]. eexists. done. }
  destruct to_id as [rid|].
  - destruct (head _) as [receiver|] eqn:Hfound; [|intros [= <- <-]; discriminate Hcreated].
    destruct (bool_decide (role receiver ≠ to_role)) eqn:Hrole;
      [intros [= <- <-]; discriminate Hcreated|].
    intros (n & Hdata & Hdb & Hfields & Hunread)%Hstore.
    exists n. unfold intendedRole_is. rewrite Hfields. cbn.
    split_and!; try done; try exact Hadmin.
    intros ? [= <-]. exists receiver.
    apply head_Some_elem_of, list_elem_of_filter in Hfound. destruct Hfound as [Hid Hin].
    apply bool_decide_eq_false in Hrole.
    repeat split; [done | done |]. by destruct (decide (role receiver = to_role)).
  - intros (n & Hdata & Hdb & Hfields & Hunread)%Hstore.
    exists n. unfold intendedRole_is. rewrite Hfields. cbn.
    split_and!; try done; exact Hadmin.
Qed.

Lemma createNotification_stores_validated_witness :
  ∃ receiver : User,
    receiver ∈ users (campus [sam; sue]) ∧ user_id receiver = user_id sam
    ∧ role receiver = "student".
Proof.
  destruct (createNotification_stores_validated accepts_all ann "Fee" "Pay by Friday"
              None None "student" (Some (user_id sam)) None (campus [sam; sue])
              (db_after (campus [sam; sue]) [fee_note])
              {| status := 201; success := true;
                 res_message := Some "Notification created successfully";
                 res_error := None; data := one fee_note |})
    as (n & _ & _ & _ & _ & _ & _ & _ & Hreceiver & _);
    [vm_compute; reflexivity | reflexivity |].
  by apply Hreceiver.
Defined.



(** X14: a notification that [createNotification] stores without a receiver
    id is granted by the read check to exactly the viewers whose role is
    its receiverRole, and to every viewer when its receiverRole is "all";
    an admin has no further access to it. Any sender passes, as long as
    the role addressed is not "admin" or the sender is an admin. *)
Theorem role_wide_notification_visibility
    (create_error : list Notification → NotificationData → option string)
    (user : User) (title message : string) (type priority : option string)
    (to_role : string) (relatedEntity : option RelatedEntity) (db : Db)
    (Hallowed : to_role ≠ "admin" ∨ role user = "admin")
    (Haccepts : ∀ stored d, create_error stored d = None) :
  ∃ n : Notification,
    createNotification create_error user title message type to_role None
      priority relatedEntity db
    = (Returned {| status := 201; success := true;
                   res_message := Some "Notification created successfully";
                   res_error := None; data := one n |},
       db_after db [n])
    ∧ ∀ V : User,
        getNotification_hasAccess n V = true ↔ to_role = role V ∨ to_role = "all".
Proof.
  assert (Hgate : bool_decide (to_role = "admin") && bool_decide (role user ≠ "admin")
                  = false).
  { destruct Hallowed as [Hne|Hadmin].
    - by rewrite (bool_decide_eq_false_2 _ Hne).
    - rewrite (bool_decide_eq_false_2 (role user ≠ "admin")) by (intros Hne; by apply Hne).
      by rewrite andb_false_r. }
  eexists. split.
  - unfold createNotification, mbind, Handler_bind.
    rewrite Hgate. by rewrite create_accepted.
  - intros V. unfold getNotification_hasAccess, receiverId_is, intendedRole_is. cbn.
    rewrite (bool_decide_eq_false_2 (None = Some (MString "admin"))) by done.
    rewrite andb_false_r, orb_false_r, orb_true_iff, !bool_decide_eq_true. done.
Qed.

Lemma role_wide_notification_visibility_witness :
  ∃ n : Notification,
    responded (createNotification accepts_all dan "Detour" "Bridge closed" None "all" None
                 None None (campus [sam]))
    = Some {| status := 201; success := true;
              res_message := Some "Notification created successfully";
              res_error := None; data := one n |}
    ∧ getNotification_hasAccess n sam = true.
Proof.
  destruct (role_wide_notification_visibility accepts_all dan "Detour" "Bridge closed"
              None None "all" None (campus [sam])) as (n & Hrun & Hvisible);
    [left; congruence | reflexivity |].
  exists n. split; [by rewrite Hrun|]. apply Hvisible. by right.
Defined.

(** ** Sends by a driver *)

Lemma sendTargeted_not_driver
    (create_error : list Notification → NotificationData → option string)
    (user : User) (title message : string) (type priority : option string)
    (targetType : string) (db : Db) :
  role user ≠ "driver" →
  sendTargetedNotification create_error user title message type priority targetType db
  = (Returned {| status := 403; success := false;
                 res_message := Some "Only drivers can send targeted notifications";
                 res_error := None; data := no_data |},
     db).
Proof.
  intros Hrole. unfold sendTargetedNotification.
  by rewrite (bool_decide_eq_true_2 _ Hrole).
Qed.

Lemma sendTargeted_bad_target
    (create_error : list Notification → NotificationData → option string)
    (user : User) (title message : string) (type priority : option string)
    (targetType : string) (db : Db) :
  role user = "driver" → targetType ≠ "students" → targetType ≠ "admin" →
  sendTargetedNotification create_error user title message type priority targetType db
  = (Returned {| status := 400; success := false;
                 res_message :=
                   Some ("Invalid target type. Must be " +:+ quoted "students"
                         +:+ " or " +:+ quoted "admin");
                 res_error := None; data := no_data |},
     db).
Proof.
  intros Hrole Hstudents Hadmin. unfold sendTargetedNotification.
  rewrite bool_decide_eq_false_2 by (intros Hne; by apply Hne).
  rewrite (bool_decide_eq_false_2 (targetType ∈ ["students"; "admin"])); [done|].
  rewrite !elem_of_cons, elem_of_nil. tauto.
Qed.

(** A driver's send to "admin" is one create inside the handler's [try]. *)
Lemma sendTargeted_admin_run
    (create_error : list Notification → NotificationData → option string)
    (user : User) (title message : string) (type priority : option string) (db : Db) :
  role user = "driver" →
  sendTargetedNotification create_error user title message type priority "admin" db
  = match create_error (notifications db)
            (admin_adminNotificationData user title message type priority) with
    | None =>
        let n := {| _id := next_id db;
                    fields := admin_adminNotificationData user title message type priority;
                    isRead := false; readAt := None |} in
        (Returned (targeted_created "admin" [n]), db_after db [n])
    | Some e =>
        (Returned {| status := 500; success := false;
                     res_message := Some "Failed to send notification";
                     res_error := Some e; data := no_data |},
         db)
    end.
Proof.
  intros Hdriver. unfold sendTargetedNotification.
  rewrite bool_decide_eq_false_2 by (intros Hne; by apply Hne).
  rewrite (bool_decide_eq_true_2 ("admin" ∈ ["students"; "admin"]))
    by (rewrite !elem_of_cons; auto).
  rewrite (bool_decide_eq_false_2 ("admin" = "students")) by done.
  rewrite (bool_decide_eq_true_2 ("admin" = "admin")) by done.
  cbn [negb]. unfold try_catch, mbind, Handler_bind.
  destruct (create_error (notifications db) _) as [e|] eqn:Hcreate.
  - by rewrite (create_refused _ _ _ _ Hcreate).
  - by rewrite (create_accepted _ _ _ Hcreate).
Qed.

(** X15: [sendTargetedNotification] always sends a response, with status
    201, 400, 403, 404 or 500: an error of the store, wherever it occurs in
    the fan-out, is caught and never reaches [asyncHandler]. *)
Theorem sendTargetedNotification_always_responds
    (create_error : list Notification → NotificationData → option string)
    (user : User) (title message : string) (type priority : option string)
    (targetType : string) (db : Db) :
  ∃ (res : Response) (db' : Db),
    sendTargetedNotification create_error user title message type priority targetType db
    = (Returned res, db')
    ∧ (status res = 201 ∨ status res = 400 ∨ status res = 403
       ∨ status res = 404 ∨ status res = 500).
Proof.
  unfold sendTargetedNotification, try_catch, mbind, Handler_bind,
    Bus_findOne_driver, User_find_students, mret, Handler_ret.
  destruct (bool_decide (role user ≠ "driver")); [eexists _, _; split; [done|auto]|].
  destruct (negb _); [eexists _, _; split; [done|auto]|].
  destruct (bool_decide (targetType = "students")).
  - destruct (head _) as [bus|]; [|eexists _, _; split; [done|auto 6]].
    destruct (for_students _ _ _ _ _ _ _ _ _ db) as [[created|e] db1];
      [|eexists _, _; split; [done|auto 6]].
    destruct (Notification_create _ _ db1) as [[n|e] db2];
      eexists _, _; (split; [done|auto 6]).
  - destruct (bool_decide (targetType = "admin")).
    + destruct (Notification_create _ _ db) as [[n|e] db2];
        eexists _, _; (split; [done|auto 6]).
    + eexists _, _; split; [done|auto].
Qed.

(** X16: the role check comes first: a sender who is not a driver gets 403
    whatever the target type, even an invalid one; a driver gets 400 for
    every target type other than "students" and "admin". Nothing is
    stored. *)
Theorem sendTargetedNotification_gate
    (create_error : list Notification → NotificationData → option string)
    (user : User) (title message : string) (type priority : option string)
    (targetType : string) (db : Db) :
  (role user ≠ "driver" →
     sendTargetedNotification create_error user title message type priority targetType db
     = (Returned {| status := 403; success := false;
                    res_message := Some "Only drivers can send targeted notifications";
                    res_error := None; data := no_data |},
        db))
  ∧ (role user = "driver" → targetType ≠ "students" → targetType ≠ "admin" →
       sendTargetedNotification create_error user title message type priority targetType db
       = (Returned {| status := 400; success := false;
                      res_message :=
                        Some ("Invalid target type. Must be " +:+ quoted "students"
                              +:+ " or " +:+ quoted "admin");
                      res_error := None; data := no_data |},
          db)).
Proof.
  split; [apply sendTargeted_not_driver | apply sendTargeted_bad_target].
Qed.

Lemma sendTargetedNotification_gate_witness :
  status <$> responded (sendTargetedNotification accepts_all ann "Late" "10 min" None None
                          "everyone" sample_db) = Some 403
  ∧ status <$> responded (sendTargetedNotification accepts_all dan "Late" "10 min" None None
                            "all" sample_db) = Some 400.
Proof.
  destruct (sendTargetedNotification_gate accepts_all ann "Late" "10 min" None None
              "everyone" sample_db) as [Hrole _].
  destruct (sendTargetedNotification_gate accepts_all dan "Late" "10 min" None None
              "all" sample_db) as [_ Htarget].
  rewrite Hrole by (vm_compute; congruence).
  rewrite Htarget by (try reflexivity; congruence).
  split; reflexivity.
Defined.

(** X17: a driver, with or without a bus, who sends to "admin" gets 201 and
    exactly one notification is stored: receiverRole "all", no receiver id,
    tagged for the admins, the title prefixed with the driver's name, the
    message as given. If the store refuses the create, the answer is 500
    with the store's error message and nothing is stored. *)
Theorem driver_sends_to_admin
    (create_error : list Notification → NotificationData → option string)
    (user : User) (subject body : string) (q_type q_priority : option string) (db : Db)
    (Hdriver : role user = "driver") :
  (create_error (notifications db)
     (admin_adminNotificationData user subject body q_type q_priority) = None →
   ∃ n : Notification,
     sendTargetedNotification create_error user subject body q_type q_priority "admin" db
     = (Returned {| status := 201; success := true;
                    res_message := Some "Notification sent to 1 recipient(s)";
                    res_error := None; data := many [n] |},
        db_after db [n])
     ∧ title n = "[Driver: " +:+ name user +:+ "] " +:+ subject
     ∧ message n = body
     ∧ senderId n = user_id user
     ∧ receiverRole n = "all" ∧ receiverId n = None
     ∧ intendedRole_is n "admin" = true)
  ∧ (∀ e, create_error (notifications db)
            (admin_adminNotificationData user subject body q_type q_priority) = Some e →
          sendTargetedNotification create_error user subject body q_type q_priority
            "admin" db
          = (Returned {| status := 500; success := false;
                         res_message := Some "Failed to send notification";
                         res_error := Some e; data := no_data |},
             db)).
Proof.
  rewrite (sendTargeted_admin_run _ _ _ _ _ _ _ Hdriver). split.
  - intros Hok. rewrite Hok. eexists. split; [reflexivity|]. cbn. split_and!; done.
  - intros e Hno. by rewrite Hno.
Qed.

Lemma driver_sends_to_admin_witness :
  ∃ n : Notification,
    responded (sendTargetedNotification accepts_all eve "Flat tyre" "Bus 9 is stopped"
                 None None "admin" sample_db)
    = Some {| status := 201; success := true;
              res_message := Some "Notification sent to 1 recipient(s)";
              res_error := None; data := many [n] |}
    ∧ title n = "[Driver: Eve] Flat tyre".
Proof.
  destruct (driver_sends_to_admin accepts_all eve "Flat tyre" "Bus 9 is stopped" None None
              sample_db eq_refl) as [Hok _].
  destruct (Hok eq_refl) as (n & Hrun & Htitle & _).
  exists n. split; [by rewrite Hrun | exact Htitle].
Defined.

(** X18: in a send to students, the type asked for by the driver goes to the
    students' notifications only: the admin copy always has type "info". The
    admin copy names the driver in its title and the bus in its message, and
    records the number of students addressed; the students' notifications
    carry the title and message as given. Both default the priority to
    "medium". The store is assumed to accept every create. *)
Theorem admin_copy_ignores_requested_type
    (create_error : list Notification → NotificationData → option string)
    (user : User) (subject body : string) (q_type q_priority : option string)
    (db : Db) (bus : Bus) (students : list User)
    (Hdriver : role user = "driver")
    (Hbus : responded (Bus_findOne_driver (user_id user) db) = Some (Some bus))
    (Hstudents : responded (User_find_students (bus_id bus) db) = Some students)
    (Haccepts : ∀ stored d, create_error stored d = None) :
  ∃ (studentNotifications : list Notification) (adminNotification : Notification),
    (sendTargetedNotification create_error user subject body q_type q_priority
       "students" db).2
    = db_after db (studentNotifications ++ [adminNotification])
    ∧ Forall (λ n : Notification,
                type n = or_default q_type "info" ∧ title n = subject ∧ message n = body
                ∧ priority n = or_default q_priority "medium"
                ∧ metadata n ≫= (.!! "intendedRole") = None)
        studentNotifications
    ∧ type adminNotification = "info"
    ∧ priority adminNotification = or_default q_priority "medium"
    ∧ title adminNotification = "[Driver: " +:+ name user +:+ "] " +:+ subject
    ∧ message adminNotification = "To students on bus " +:+ busNumber bus +:+ ": " +:+ body
    ∧ metadata adminNotification ≫= (.!! "studentCount")
      = Some (MNumber (length students))
    ∧ metadata adminNotification ≫= (.!! "originalTarget") = Some (MString "students").
Proof.
  rewrite (sendTargeted_students_run _ _ _ _ _ _ _ _ _ Hdriver Hbus Hstudents).
  unfold try_catch, mbind, Handler_bind.
  rewrite create_each_accepted by (intros; apply Haccepts).
  unfold students_fanout. rewrite stored_from_app. cbn [snd mret Handler_ret stored_from].
  eexists _, _. split; [reflexivity|]. split.
  - clear Hstudents. generalize (next_id db).
    induction students as [|s rest IH]; intros first; [constructor|].
    rewrite fmap_cons. cbn [stored_from]. constructor; [|apply IH].
    cbn. split_and!; done.
  - cbn. split_and!; done.
Qed.

Lemma admin_copy_ignores_requested_type_witness :
  ∃ (studentNotifications : list Notification) (adminNotification : Notification),
    notifications (sendTargetedNotification accepts_all dan "Late" "10 min" (Some "alert")
                     None "students" (campus [sam; sue])).2
    = studentNotifications ++ [adminNotification]
    ∧ Forall (λ n : Notification, type n = "alert") studentNotifications
    ∧ type adminNotification = "info".
Proof.
  destruct (admin_copy_ignores_requested_type accepts_all dan "Late" "10 min" (Some "alert")
              None (campus [sam; sue]) bus7 [sam; sue])
    as (studentNotifications & adminNotification & Hdb & Hstudents & Hadmin & _);
    [reflexivity | vm_compute; reflexivity | vm_compute; reflexivity | reflexivity |].
  exists studentNotifications, adminNotification. rewrite Hdb.
  split; [reflexivity|]. split; [|exact Hadmin].
  eapply Forall_impl; [exact Hstudents|]. by intros n [Htype _].
Defined.

(** ** Broadcasts *)

(** X19: [broadcastNotification] has no [try]: when the create for one of
    the target roles is refused, after the creates for the roles before it
    were accepted, the handler sends no response, the error goes on to
    [asyncHandler], and the notifications for the earlier roles stay
    stored. *)
Theorem broadcast_failure_is_uncaught
    (create_error : list Notification → NotificationData → option string)
    (user : User) (title message : string) (type priority : option string)
    (targetRoles : list string) (db : Db) (k : nat) (r : string) (e : string)
    (Hk : targetRoles !! k = Some r)
    (Hbefore : ∀ j r', j < k → targetRoles !! j = Some r' →
       create_error
         (notifications db
          ++ stored_from (next_id db)
               (broadcast_notificationData user title message type priority
                <$> take j targetRoles))
         (broadcast_notificationData user title message type priority r') = None)
    (Hat : create_error
             (notifications db
              ++ stored_from (next_id db)
                   (broadcast_notificationData user title message type priority
                    <$> take k targetRoles))
             (broadcast_notificationData user title message type priority r) = Some e) :
  let stored :=
    stored_from (next_id db)
      (broadcast_notificationData user title message type priority <$> take k targetRoles) in
  broadcastNotification create_error user title message type priority (Some targetRoles) db
  = (Threw e, db_after db stored)
  ∧ length stored = k
  ∧ Forall2 (λ (n : Notification) r', receiverRole n = r') stored (take k targetRoles).
Proof.
  intros stored. split; [|split].
  - destruct targetRoles as [|r0 rest]; [by rewrite lookup_nil in Hk|].
    unfold broadcastNotification, mbind, Handler_bind.
    rewrite for_targetRoles_create_each.
    remember (r0 :: rest) as targetRoles eqn:Hroles. clear Hroles.
    rewrite (create_each_refused _ _ _ _ k
               (broadcast_notificationData user title message type priority r) e).
    + unfold stored. by rewrite fmap_take.
    + by rewrite list_lookup_fmap, Hk.
    + intros j d' Hj Hlook. rewrite list_lookup_fmap in Hlook.
      destruct (targetRoles !! j) as [r'|] eqn:Hr'; [|done].
      injection Hlook as <-. rewrite <- fmap_take. by apply Hbefore.
    + by rewrite <- fmap_take.
  - unfold stored. rewrite length_stored_from, length_fmap, length_take.
    apply lookup_lt_Some in Hk. lia.
  - unfold stored. eapply Forall2_impl; [apply stored_from_fmap_Forall2|].
    intros n r' Hn. simpl in Hn. by rewrite Hn.
Qed.

Lemma broadcast_failure_is_uncaught_witness :
  broadcastNotification
    (λ _ d, if bool_decide (receiverRole d = "parent") then Some "ValidationError" else None)
    ann "Strike" "No buses" None None (Some ["driver"; "parent"; "student"]) (campus [])
  = (Threw "ValidationError",
     db_after (campus [])
       (stored_from 100
          (broadcast_notificationData ann "Strike" "No buses" None None
           <$> take 1 ["driver"; "parent"; "student"]))).
Proof.
  refine (proj1 (broadcast_failure_is_uncaught _ ann "Strike" "No buses" None None
                   ["driver"; "parent"; "student"] (campus []) 1 "parent"
                   "ValidationError" _ _ _)).
  - reflexivity.
  - intros j r' Hj Hlook. destruct j as [|j]; [|lia].
    simpl in Hlook. injection Hlook as <-. reflexivity.
  - reflexivity.
Defined.

Lemma broadcast_created_hasAccess (user : User) (title message : string)
    (type priority : option string) (r : string) (id : ObjectId) (V : User) :
  r ≠ "all" →
  getNotification_hasAccess
    {| _id := id;
       fields := broadcast_notificationData user title message type priority r;
       isRead := false; readAt := None |} V
  = bool_decide (r = role V).
Proof.
  intros Hall. unfold getNotification_hasAccess, receiverId_is, intendedRole_is. cbn.
  rewrite (bool_decide_eq_false_2 _ Hall).
  rewrite (bool_decide_eq_false_2 (None = Some (MString "admin"))) by done.
  by rewrite andb_false_r, !orb_false_r.
Qed.

(** X20: after a broadcast to a list of distinct roles that does not contain
    "all", the read check grants a viewer exactly one of the notifications
    created when the viewer's role is among the target roles, and none of
    them otherwise; an admin gets no more than any other role. The store
    is assumed to accept every create. *)
Theorem broadcast_reaches_each_role_once
    (create_error : list Notification → NotificationData → option string)
    (user : User) (title message : string) (type priority : option string)
    (targetRoles : list string) (db : Db)
    (Hne : targetRoles ≠ [])
    (Hnodup : NoDup targetRoles)
    (Hall : "all" ∉ targetRoles)
    (Haccepts : ∀ stored d, create_error stored d = None) :
  ∃ created : list Notification,
    broadcastNotification create_error user title message type priority
      (Some targetRoles) db
    = (Returned {| status := 201; success := true;
                   res_message :=
                     Some ("Broadcast notification sent to "
                           +:+ pretty (length created) +:+ " role(s)");
                   res_error := None; data := many created |},
       db_after db created)
    ∧ ∀ V : User,
        length (List.filter (λ n, getNotification_hasAccess n V) created)
        = if bool_decide (role V ∈ targetRoles) then 1 else 0.
Proof.
  exists (stored_from (next_id db)
            (broadcast_notificationData user title message type priority <$> targetRoles)).
  split.
  - destruct targetRoles as [|r rest]; [done|].
    unfold broadcastNotification, mbind, Handler_bind.
    rewrite for_targetRoles_create_each.
    by rewrite create_each_accepted by (intros; apply Haccepts).
  - intros V. clear Hne Haccepts. generalize (next_id db).
    induction targetRoles as [|r rest IH]; intros first; [done|].
    apply NoDup_cons in Hnodup as [Hfresh Hnodup].
    apply not_elem_of_cons in Hall as [Hr Hall].
    rewrite fmap_cons. cbn [stored_from List.filter].
    rewrite broadcast_created_hasAccess by done.
    destruct (decide (r = role V)) as [->|Hother].
    + rewrite (bool_decide_eq_true_2 (role V = role V)) by done.
      rewrite (bool_decide_eq_true_2 (role V ∈ role V :: rest)) by apply list_elem_of_here.
      cbn [length]. rewrite (IH Hnodup Hall).
      by rewrite (bool_decide_eq_false_2 _ Hfresh).
    + rewrite (bool_decide_eq_false_2 _ Hother), (IH Hnodup Hall).
      destruct (decide (role V ∈ rest)) as [Hin|Hout].
      * rewrite (bool_decide_eq_true_2 _ Hin).
        by rewrite (bool_decide_eq_true_2 (role V ∈ r :: rest))
          by (by apply list_elem_of_further).
      * rewrite (bool_decide_eq_false_2 _ Hout).
        rewrite (bool_decide_eq_false_2 (role V ∈ r :: rest)); [done|].
        rewrite elem_of_cons. intros [Heq|Hin]; [by apply Hother | by apply Hout].
Qed.

Lemma broadcast_reaches_each_role_once_witness :
  ∃ created : list Notification,
    data <$> responded (broadcastNotification accepts_all ann "Strike" "No buses" None None
                          (Some ["admin"; "driver"; "student"]) (campus [sam]))
    = Some (many created)
    ∧ length (List.filter (λ n, getNotification_hasAccess n ann) created) = 1.
Proof.
  destruct (broadcast_reaches_each_role_once accepts_all ann "Strike" "No buses" None None
              ["admin"; "driver"; "student"] (campus [sam]))
    as (created & Hrun & Honce).
  - congruence.
  - repeat (apply NoDup_cons; split; [rewrite ?elem_of_cons, elem_of_nil; intuition congruence|]).
    apply NoDup_nil_2.
  - rewrite !elem_of_cons, elem_of_nil. intuition congruence.
  - reflexivity.
  - exists created. split; [by rewrite Hrun | exact (Honce ann)].
Defined.

(** ** Invariants of the collection *)

(** Whatever happens, a run of creates stores the documents of a prefix of
    its literals. *)
Lemma create_each_stores_prefix
    (create_error : list Notification → NotificationData → option string)
    (literals : list NotificationData) (acc : list Notification) (db : Db) :
  ∃ k, (create_each create_error literals acc db).2
       = db_after db (stored_from (next_id db) (take k literals)).
Proof.
  revert acc db. induction literals as [|d rest IH]; intros acc db.
  - exists 0. simpl. by rewrite db_after_nil.
  - destruct (create_error (notifications db) d) as [e|] eqn:Hd.
    + exists 0. simpl. unfold mbind, Handler_bind.
      rewrite (create_refused _ _ _ _ Hd). simpl. by rewrite db_after_nil.
    + rewrite (create_each_cons_accepted _ _ _ _ _ Hd).
      destruct (IH (acc ++ [ {| _id := next_id db; fields := d; isRead := false;
                                readAt := None |} ])
                  (db_after db [ {| _id := next_id db; fields := d; isRead := false;
                                    readAt := None |} ])) as [k Hk].
      exists (S k). rewrite Hk. cbn [db_after next_id length Nat.iter take stored_from].
      by rewrite db_after_cons.
Qed.

Lemma tag_ok_students (user : User) (title message : string)
    (type priority : option string) (bus : Bus) (students : list User) :
  Forall tag_ok (students_fanout user title message type priority bus students).
Proof.
  unfold students_fanout. apply Forall_app. split.
  - apply Forall_fmap, Forall_forall. intros s _ Htag. by cbn in Htag.
  - by repeat constructor.
Qed.

(** Each creating handler leaves the database extended by the documents of
    some literals, none of which carries the admin tag on anything but a
    broadcast-shaped record. *)
Lemma sendTargeted_stores
    (create_error : list Notification → NotificationData → option string)
    (user : User) (title message : string) (type priority : option string)
    (targetType : string) (db : Db) :
  ∃ literals,
    (sendTargetedNotification create_error user title message type priority targetType db).2
    = db_after db (stored_from (next_id db) literals)
    ∧ Forall tag_ok literals.
Proof.
  destruct (decide (role user = "driver")) as [Hdriver|Hother].
  2:{ exists []. split; [|constructor].
      rewrite (sendTargeted_not_driver create_error user title message type priority
                 targetType db Hother).
      simpl. by rewrite db_after_nil. }
  destruct (decide (targetType = "students")) as [->|Hstudents].
  - destruct (head (filter (λ b, driverId b = Some (user_id user)) (buses db)))
      as [bus|] eqn:Hbus.
    + rewrite (sendTargeted_students_run create_error user title message type priority db
                 bus (filter (λ u, role u = "student" ∧ assignedBus u = Some (bus_id bus))
                        (users db)) Hdriver);
        [|unfold responded, Bus_findOne_driver; simpl; by rewrite Hbus | done].
      destruct (create_each_stores_prefix create_error
                  (students_fanout user title message type priority bus
                     (filter (λ u, role u = "student" ∧ assignedBus u = Some (bus_id bus))
                        (users db))) [] db) as [k Hk].
      exists (take k (students_fanout user title message type priority bus
                        (filter (λ u, role u = "student" ∧ assignedBus u = Some (bus_id bus))
                           (users db)))).
      split; [|apply Forall_take, tag_ok_students].
      rewrite <- Hk. unfold try_catch, mbind, Handler_bind.
      by destruct (create_each _ _ _ _) as [[created|e] db1].
    + exists []. split; [|constructor]. rewrite db_after_nil.
      unfold sendTargetedNotification.
      rewrite bool_decide_eq_false_2 by (intros Hne; by apply Hne).
      rewrite (bool_decide_eq_true_2 ("students" ∈ ["students"; "admin"]))
        by (rewrite !elem_of_cons; auto).
      rewrite (bool_decide_eq_true_2 ("students" = "students")) by done.
      cbn [negb]. unfold try_catch, mbind, Handler_bind, Bus_findOne_driver.
      by rewrite Hbus.
  - destruct (decide (targetType = "admin")) as [->|Hadmin].
    + rewrite (sendTargeted_admin_run create_error user title message type priority db
                 Hdriver).
      destruct (create_error (notifications db) _) as [e|].
      * exists []. split; [|constructor]. by rewrite db_after_nil.
      * exists [admin_adminNotificationData user title message type priority].
        split; [done | by repeat constructor].
    + exists []. split; [|constructor]. rewrite db_after_nil.
      by rewrite (sendTargeted_bad_target create_error user title message type priority
                    targetType db Hdriver Hstudents Hadmin).
Qed.

Lemma createNotification_stores
    (create_error : list Notification → NotificationData → option string)
    (user : User) (title message : string) (type priority : option string)
    (to_role : string) (to_id : option ObjectId)
    (relatedEntity : option RelatedEntity) (db : Db) :
  ∃ literals,
    (createNotification create_error user title message type to_role to_id priority
       relatedEntity db).2
    = db_after db (stored_from (next_id db) literals)
    ∧ Forall tag_ok literals.
Proof.
  unfold createNotification, mbind, Handler_bind, User_findById, mret, Handler_ret,
    Notification_create.
  assert (Hnothing : ∃ literals,
            db = db_after db (stored_from (next_id db) literals) ∧ Forall tag_ok literals).
  { exists []. split; [by rewrite db_after_nil | constructor]. }
  destruct (_ && _); [exact Hnothing|].
  destruct to_id as [rid|]; cbv beta zeta.
  - destruct (head _) as [receiver|]; [|exact Hnothing].
    destruct (bool_decide _); [exact Hnothing|].
    destruct (create_error (notifications db) _); [exact Hnothing|].
    eexists [_]. split; [reflexivity|]. by repeat constructor.
  - destruct (create_error (notifications db) _); [exact Hnothing|].
    eexists [_]. split; [reflexivity|]. by repeat constructor.
Qed.

Lemma broadcast_stores
    (create_error : list Notification → NotificationData → option string)
    (user : User) (title message : string) (type priority : option string)
    (targetRoles : option (list string)) (db : Db) :
  ∃ literals,
    (broadcastNotification create_error user title message type priority targetRoles db).2
    = db_after db (stored_from (next_id db) literals)
    ∧ Forall tag_ok literals.
Proof.
  destruct targetRoles as [[|r rest]|];
    try (exists []; split; [by rewrite db_after_nil | constructor]).
  destruct (create_each_stores_prefix create_error
              (broadcast_notificationData user title message type priority <$> r :: rest)
              [] db) as [k Hk].
  exists (take k (broadcast_notificationData user title message type priority <$> r :: rest)).
  split.
  - rewrite <- Hk. unfold broadcastNotification, mbind, Handler_bind.
    rewrite for_targetRoles_create_each.
    by destruct (create_each _ _ _ _) as [[created|e] db1].
  - apply Forall_take, Forall_fmap, Forall_forall. by intros r' _ Htag.
Qed.

Lemma tag_only_on_all_after (db : Db) (literals : list NotificationData) :
  tag_only_on_all (notifications db) → Forall tag_ok literals →
  tag_only_on_all (notifications (db_after db (stored_from (next_id db) literals))).
Proof.
  intros Hold Hnew n. cbn [db_after notifications]. rewrite elem_of_app.
  intros [Hn|Hn]; [by apply Hold|]. intros Htag.
  assert (Hfields : fields n ∈ literals).
  { rewrite <- (fields_stored_from (next_id db) literals).
    apply list_elem_of_fmap. by exists n. }
  rewrite Forall_forall in Hnew. apply (Hnew _ Hfields).
  unfold intendedRole_is in Htag. by apply bool_decide_eq_true in Htag.
Qed.

(** An update that keeps the created fields of every document keeps the
    invariant. *)
Lemma tag_only_on_all_fmap (g : Notification → Notification) (stored : list Notification) :
  (∀ m, m ∈ stored → ∃ m', m' ∈ stored ∧ fields (g m) = fields m') →
  tag_only_on_all stored → tag_only_on_all (g <$> stored).
Proof.
  intros Hg Hold n [m [-> Hm]]%list_elem_of_fmap Htag.
  destruct (Hg m Hm) as (m' & Hm' & Hfields).
  unfold intendedRole_is in *. rewrite Hfields in *. by apply (Hold m' Hm').
Qed.

Lemma markAsRead_stores (user : User) (nid : ObjectId) (now : nat) (db : Db) :
  ∃ g : Notification → Notification,
    (markAsRead user nid now db).2
    = {| users := users db; buses := buses db;
         notifications := g <$> notifications db; next_id := next_id db |}
    ∧ ∀ m, m ∈ notifications db →
        _id (g m) = _id m ∧ ∃ m', m' ∈ notifications db ∧ fields (g m) = fields m'.
Proof.
  assert (Hnothing : ∃ g : Notification → Notification,
            db = {| users := users db; buses := buses db;
                    notifications := g <$> notifications db; next_id := next_id db |}
            ∧ ∀ m, m ∈ notifications db →
                _id (g m) = _id m ∧ ∃ m', m' ∈ notifications db ∧ fields (g m) = fields m').
  { exists id. rewrite list_fmap_id. split; [by destruct db|]. intros m Hm. eauto. }
  unfold markAsRead, mbind, Handler_bind, Notification_findById, Notification_markAsRead.
  cbn [fst snd]. destruct (head _) as [n|] eqn:Hfound; [|exact Hnothing].
  destruct (negb _); [exact Hnothing|].
  apply head_Some_elem_of, list_elem_of_filter in Hfound as [_ Hn].
  eexists. split; [reflexivity|]. intros m Hm. cbn beta.
  destruct (bool_decide (_id m = _id n)) eqn:Hid; [|eauto].
  apply bool_decide_eq_true in Hid.
  destruct (isRead n); cbn; (split; [done|]); by exists n.
Qed.

(** X21: if the admin tag is stored only on records with receiverRole "all"
    and no receiver id, this is still so after any handler of the
    controller has run, whatever its arguments and whether it succeeds,
    refuses or fails halfway. *)
Theorem admin_tag_stays_on_broadcast_records
    (create_error : list Notification → NotificationData → option string)
    (user : User) (db : Db)
    (Hinv : tag_only_on_all (notifications db)) :
  (∀ title message type priority targetType,
     tag_only_on_all
       (notifications (sendTargetedNotification create_error user title message type
                         priority targetType db).2))
  ∧ (∀ title message type to_role to_id priority relatedEntity,
       tag_only_on_all
         (notifications (createNotification create_error user title message type to_role
                           to_id priority relatedEntity db).2))
  ∧ (∀ title message type priority targetRoles,
       tag_only_on_all
         (notifications (broadcastNotification create_error user title message type
                           priority targetRoles db).2))
  ∧ (∀ id, tag_only_on_all (notifications (getNotification user id db).2))
  ∧ (∀ id now, tag_only_on_all (notifications (markAsRead user id now db).2))
  ∧ (∀ now, tag_only_on_all (notifications (markAllAsRead user now db).2))
  ∧ (∀ id, tag_only_on_all (notifications (deleteNotification user id db).2)).
Proof.
  split_and!.
  - intros subject body q_type q_priority targetType.
    destruct (sendTargeted_stores create_error user subject body q_type q_priority
                targetType db) as (literals & -> & Hok).
    by apply tag_only_on_all_after.
  - intros subject body q_type to_role to_id q_priority related.
    destruct (createNotification_stores create_error user subject body q_type q_priority
                to_role to_id related db) as (literals & -> & Hok).
    by apply tag_only_on_all_after.
  - intros subject body q_type q_priority targetRoles.
    destruct (broadcast_stores create_error user subject body q_type q_priority
                targetRoles db) as (literals & -> & Hok).
    by apply tag_only_on_all_after.
  - intros id. unfold getNotification, mbind, Handler_bind, Notification_findById.
    cbn [fst snd]. destruct (head _) as [n|]; [|done]. by destruct (negb _).
  - intros id now. destruct (markAsRead_stores user id now db) as (g & -> & Hg).
    cbn [notifications]. apply tag_only_on_all_fmap; [|done].
    intros m Hm. by destruct (Hg m Hm).
  - intros now. rewrite markAllAsRead_run. cbn [snd notifications].
    apply tag_only_on_all_fmap; [|done].
    intros m Hm. exists m. split; [done|]. by destruct (_ && _).
  - intros id. unfold deleteNotification, mbind, Handler_bind, Notification_findById,
      Notification_findByIdAndDelete.
    cbn [fst snd]. destruct (head _) as [n|]; [|done]. destruct (negb _); [done|].
    cbn [snd notifications]. intros m [_ Hm]%list_elem_of_filter. by apply Hinv.
Qed.

Lemma admin_tag_stays_on_broadcast_records_witness :
  Forall (λ n : Notification, intendedRole_is n "admin" = true → receiverRole n = "all")
    (notifications (sendTargetedNotification accepts_all dan "Late" "10 min" None None
                      "students" (campus [sam; sue])).2).
Proof.
  destruct (admin_tag_stays_on_broadcast_records accepts_all dan (campus [sam; sue]))
    as (Htargeted & _).
  - intros n Hn. by apply elem_of_nil in Hn.
  - apply Forall_forall. intros n Hn Htag.
    exact (proj1 (Htargeted "Late" "10 min" None None "students" n Hn Htag)).
Defined.

Lemma fresh_ids_after (db : Db) (literals : list NotificationData) :
  fresh_ids db → fresh_ids (db_after db (stored_from (next_id db) literals)).
Proof.
  revert db. induction literals as [|d rest IH]; intros db Hfresh.
  - by rewrite db_after_nil.
  - cbn [stored_from]. rewrite <- db_after_cons.
    apply (IH (db_after db [ {| _id := next_id db; fields := d; isRead := false;
                                readAt := None |} ])).
    destruct Hfresh as [Hbelow Hnodup]. split; simpl.
    + apply Forall_app. split.
      * eapply Forall_impl; [exact Hbelow|]. intros m Hm. simpl in Hm. lia.
      * repeat constructor. simpl. lia.
    + rewrite fmap_app. apply NoDup_app. split; [done|]. split; [|apply NoDup_singleton].
      intros i [m [-> Hm]]%list_elem_of_fmap [= Heq]%list_elem_of_singleton.
      rewrite Forall_forall in Hbelow. specialize (Hbelow m Hm). simpl in Hbelow. lia.
Qed.

Lemma fresh_ids_fmap (g : Notification → Notification) (db : Db) :
  (∀ m, m ∈ notifications db → _id (g m) = _id m) →
  fresh_ids db →
  fresh_ids {| users := users db; buses := buses db;
               notifications := g <$> notifications db; next_id := next_id db |}.
Proof.
  intros Hg [Hbelow Hnodup]. split; cbn [notifications next_id].
  - apply Forall_fmap. rewrite Forall_forall in *. intros m Hm. simpl.
    rewrite (Hg m Hm). by apply Hbelow.
  - rewrite <- list_fmap_compose.
    rewrite (list_fmap_ext (_id ∘ g) _id (notifications db)); [done|].
    intros i m Hm. simpl. apply Hg. by eapply list_elem_of_lookup_2.
Qed.

Lemma NoDup_fmap_filter {A B} (f : A → B) (P : A → Prop) `{∀ x, Decision (P x)}
    (l : list A) :
  NoDup (f <$> l) → NoDup (f <$> filter P l).
Proof.
  induction l as [|a l IH]; [done|]. rewrite fmap_cons, NoDup_cons. intros [Hfresh Hnodup].
  rewrite filter_cons. destruct (decide (P a)); [|by apply IH].
  rewrite fmap_cons. apply NoDup_cons. split; [|by apply IH].
  intros [b [Hb [_ Hin]%list_elem_of_filter]]%list_elem_of_fmap.
  apply Hfresh. apply list_elem_of_fmap. by exists b.
Qed.

(** X22: if the stored ids are distinct and all below the next id, this is
    still so after any handler of the controller has run: no handler ever
    leaves two notifications under one id, and a new notification never
    takes the id of a stored one. *)
Theorem ids_stay_fresh
    (create_error : list Notification → NotificationData → option string)
    (user : User) (db : Db)
    (Hfresh : fresh_ids db) :
  (∀ title message type priority targetType,
     fresh_ids (sendTargetedNotification create_error user title message type
                  priority targetType db).2)
  ∧ (∀ title message type to_role to_id priority relatedEntity,
       fresh_ids (createNotification create_error user title message type to_role
                    to_id priority relatedEntity db).2)
  ∧ (∀ title message type priority targetRoles,
       fresh_ids (broadcastNotification create_error user title message type
                    priority targetRoles db).2)
  ∧ (∀ id, fresh_ids (getNotification user id db).2)
  ∧ (∀ id now, fresh_ids (markAsRead user id now db).2)
  ∧ (∀ now, fresh_ids (markAllAsRead user now db).2)
  ∧ (∀ id, fresh_ids (deleteNotification user id db).2).
Proof.
  split_and!.
  - intros subject body q_type q_priority targetType.
    destruct (sendTargeted_stores create_error user subject body q_type q_priority
                targetType db) as (literals & -> & _).
    by apply fresh_ids_after.
  - intros subject body q_type to_role to_id q_priority related.
    destruct (createNotification_stores create_error user subject body q_type q_priority
                to_role to_id related db) as (literals & -> & _).
    by apply fresh_ids_after.
  - intros subject body q_type q_priority targetRoles.
    destruct (broadcast_stores create_error user subject body q_type q_priority
                targetRoles db) as (literals & -> & _).
    by apply fresh_ids_after.
  - intros nid. unfold getNotification, mbind, Handler_bind, Notification_findById.
    cbn [fst snd]. destruct (head _) as [n|]; [|done]. by destruct (negb _).
  - intros nid now. destruct (markAsRead_stores user nid now db) as (g & -> & Hg).
    apply fresh_ids_fmap; [|done]. intros m Hm. by destruct (Hg m Hm).
  - intros now. rewrite markAllAsRead_run. cbn [snd].
    apply fresh_ids_fmap; [|done]. intros m Hm. by destruct (_ && _).
  - intros nid. unfold deleteNotification, mbind, Handler_bind, Notification_findById,
      Notification_findByIdAndDelete.
    cbn [fst snd]. destruct (head _) as [n|]; [|done]. destruct (negb _); [done|].
    cbn [snd]. destruct Hfresh as [Hbelow Hnodup]. split; cbn [notifications next_id].
    + rewrite Forall_forall in *. intros m [_ Hm]%list_elem_of_filter. by apply Hbelow.
    + by apply NoDup_fmap_filter.
Qed.

Lemma ids_stay_fresh_witness :
  fresh_ids (deleteNotification sam 100 sample_db).2.
Proof.
  apply (ids_stay_fresh accepts_all sam sample_db).
  split.
  - repeat constructor.
  - simpl. repeat (apply NoDup_cons;
                   split; [rewrite ?elem_of_cons, elem_of_nil; intuition congruence|]).
    apply NoDup_nil_2.
Defined.

Lemma filter_fresh_id (next : ObjectId) (stored : list Notification) :
  Forall (λ m : Notification, (_id m < next)%positive) stored →
  filter (λ m : Notification, _id m = next) stored = []
  ∧ filter (λ m : Notification, _id m ≠ next) stored = stored.
Proof.
  induction 1 as [|m stored Hm _ [IHeq IHne]]; [done|].
  rewrite !filter_cons. destruct (decide (_id m = next)) as [Heq|Hne]; [lia|].
  destruct (decide (_id m ≠ next)); [|done]. by rewrite IHeq, IHne.
Qed.

(** X23: in a database whose ids are fresh, a direct notification that
    [createNotification] has stored for a user is returned to that user by
    [getNotification] under the id of the response; when the user then
    deletes it, the collection is exactly what it was before the create,
    and the id is answered with 404. *)
Theorem created_notification_round_trip
    (create_error : list Notification → NotificationData → option string)
    (sender receiver : User) (subject body : string) (q_type q_priority : option string)
    (related : option RelatedEntity) (db : Db)
    (Hfresh : fresh_ids db)
    (Hallowed : role receiver ≠ "admin" ∨ role sender = "admin")
    (Hreceiver : responded (User_findById (user_id receiver) db) = Some (Some receiver))
    (Haccepts : ∀ stored d, create_error stored d = None) :
  ∃ (n : Notification) (db1 db2 : Db),
    createNotification create_error sender subject body q_type (role receiver)
      (Some (user_id receiver)) q_priority related db
    = (Returned {| status := 201; success := true;
                   res_message := Some "Notification created successfully";
                   res_error := None; data := one n |},
       db1)
    ∧ getNotification receiver (_id n) db1
      = (Returned {| status := 200; success := true; res_message := None;
                     res_error := None; data := one n |},
         db1)
    ∧ deleteNotification receiver (_id n) db1
      = (Returned {| status := 200; success := true;
                     res_message := Some "Notification deleted successfully";
                     res_error := None; data := no_data |},
         db2)
    ∧ notifications db2 = notifications db
    ∧ status <$> responded (getNotification receiver (_id n) db2) = Some 404.
Proof.
  assert (Hgate : bool_decide (role receiver = "admin") && bool_decide (role sender ≠ "admin")
                  = false).
  { destruct Hallowed as [Hne|Hadmin].
    - by rewrite (bool_decide_eq_false_2 _ Hne).
    - rewrite (bool_decide_eq_false_2 (role sender ≠ "admin")) by (intros Hne; by apply Hne).
      by rewrite andb_false_r. }
  unfold responded, User_findById in Hreceiver. simpl in Hreceiver.
  injection Hreceiver as Hreceiver.
  destruct Hfresh as [Hbelow _].
  destruct (filter_fresh_id (next_id db) (notifications db) Hbelow) as [Hnone Hkeep].
  eexists _, _, _. split.
  { unfold createNotification, mbind, Handler_bind, User_findById.
    rewrite Hgate. cbv beta zeta. rewrite Hreceiver.
    rewrite bool_decide_eq_false_2 by (intros Hne; by apply Hne).
    by rewrite create_accepted. }
  cbn [_id].
  assert (Hview : ∀ (n : Notification), receiverId n = Some (user_id receiver) →
            getNotification_hasAccess n receiver = true
            ∧ deleteNotification_hasAccess n receiver = true).
  { intros n Hn. unfold getNotification_hasAccess, deleteNotification_hasAccess.
    by rewrite (proj2 (receiverId_is_true n (user_id receiver)) Hn). }
  split; [|split; [|split]].
  - unfold getNotification, mbind, Handler_bind, Notification_findById.
    cbn [db_after notifications]. rewrite filter_app, Hnone, filter_cons.
    destruct (decide _); [|done]. cbn [app head filter].
    match goal with
    | |- context [getNotification_hasAccess ?n receiver] =>
        by rewrite (proj1 (Hview n eq_refl))
    end.
  - unfold deleteNotification, mbind, Handler_bind, Notification_findById.
    cbn [db_after notifications]. rewrite filter_app, Hnone, filter_cons.
    destruct (decide _); [|done]. cbn [app head filter].
    match goal with
    | |- context [deleteNotification_hasAccess ?n receiver] =>
        by rewrite (proj2 (Hview n eq_refl))
    end.
  - cbn [notifications db_after]. rewrite filter_app, Hkeep, filter_cons.
    destruct (decide _); [done|]. by rewrite filter_nil, app_nil_r.
  - unfold getNotification, responded, mbind, Handler_bind, Notification_findById.
    cbn [notifications db_after fst]. rewrite findById_after_delete.
    by destruct (decide _).
Qed.

Lemma created_notification_round_trip_witness :
  ∃ (n : Notification) (db1 db2 : Db),
    (createNotification accepts_all ann "Fee" "Pay by Friday" None "student"
       (Some (user_id sam)) None None (campus [sam; sue])).2 = db1
    ∧ status <$> responded (getNotification sam (_id n) db1) = Some 200
    ∧ (deleteNotification sam (_id n) db1).2 = db2
    ∧ notifications db2 = notifications (campus [sam; sue]).
Proof.
  destruct (created_notification_round_trip accepts_all ann sam "Fee" "Pay by Friday"
              None None None (campus [sam; sue]))
    as (n & db1 & db2 & Hcreate & Hget & Hdelete & Hsame & _).
  - split; [constructor | apply NoDup_nil_2].
  - left. vm_compute. congruence.
  - vm_compute. reflexivity.
  - reflexivity.
  - exists n, db1, db2. change (role sam) with "student" in Hcreate.
    rewrite Hcreate, Hget, Hdelete. done.
Defined.

(** ** The send form against the routes *)



(** X25: for an admin, the form's choice "all" is sent as a broadcast to
    the three roles; the route lets the admin through and the controller
    stores three notifications, addressed to "admin", "driver" and
    "student" in that order, none to a receiver id and none with
    receiverRole "all"; the form's priority is used unless it is empty.
    The store is assumed to accept every create. *)
Theorem form_all_users_stores_three
    (create_error : list Notification → NotificationData → option string)
    (user : User) (formData : FormData) (db : Db)
    (Hadmin : role user = "admin")
    (Hall : recipientType formData = "all")
    (Haccepts : ∀ stored d, create_error stored d = None) :
  ∃ n1 n2 n3 : Notification,
    route_of_call create_error user (handleSubmit_call (Some user) formData) db
    = Some (Returned {| status := 201; success := true;
                        res_message := Some "Broadcast notification sent to 3 role(s)";
                        res_error := None; data := many [n1; n2; n3] |},
            db_after db [n1; n2; n3])
    ∧ receiverRole <$> [fields n1; fields n2; fields n3] = ["admin"; "driver"; "student"]
    ∧ receiverId <$> [fields n1; fields n2; fields n3] = [None; None; None]
    ∧ Forall (λ n : Notification,
                title n = form_title formData ∧ message n = form_message formData
                ∧ priority n = or_default (Some (form_priority formData)) "medium"
                ∧ type n = "info" ∧ senderId n = user_id user)
        [n1; n2; n3].
Proof.
  unfold handleSubmit_call. cbn [fmap option_fmap option_map].
  rewrite bool_decide_eq_false_2 by (rewrite Hadmin; congruence).
  rewrite (bool_decide_eq_true_2 _ Hall). cbn [route_of_call].
  unfold adminOnly. rewrite (bool_decide_eq_true_2 _ Hadmin).
  unfold broadcastNotification, mbind, Handler_bind.
  rewrite for_targetRoles_create_each.
  rewrite create_each_accepted by (intros; apply Haccepts).
  eexists _, _, _. split; [reflexivity|]. cbn.
  split; [done|]. split; [done|]. by repeat constructor.
Qed.

Lemma form_all_users_stores_three_witness :
  ∃ n1 n2 n3 : Notification,
    route_of_call accepts_all ann (handleSubmit_call (Some ann) initial_formData) sample_db
    ≫= (λ r, data <$> responded r)
    = Some (many [n1; n2; n3])
    ∧ receiverRole <$> [fields n1; fields n2; fields n3] = ["admin"; "driver"; "student"].
Proof.
  destruct (form_all_users_stores_three accepts_all ann initial_formData sample_db)
    as (n1 & n2 & n3 & Hrun & Hroles & _);
    [reflexivity | reflexivity | reflexivity |].
  exists n1, n2, n3. split; [by rewrite Hrun | exact Hroles].
Defined.

Lemma role_wide_hasAccess (n : Notification) (V : User) :
  receiverId n = None → metadata n = None → receiverRole n ≠ "all" →
  getNotification_hasAccess n V = bool_decide (receiverRole n = role V).
Proof.
  intros Hid Hmeta Hall. unfold getNotification_hasAccess, receiverId_is, intendedRole_is.
  rewrite Hid, Hmeta, (bool_decide_eq_false_2 _ Hall). cbn.
  rewrite (bool_decide_eq_false_2 (None = Some (MString "admin"))) by done.
  by rewrite andb_false_r, !orb_false_r.
Qed.

(** X26: for an admin, each of the form's choices "students", "drivers",
    "admins" and "admin" is sent as a direct create without a receiver id,
    to the role "student", "driver" or "admin"; the route lets the admin
    through and the controller stores one notification, which the read
    check grants to exactly the viewers holding that role, whatever bus
    they are assigned to. The store is assumed to accept every create. *)
Theorem form_role_choice_is_role_wide
    (create_error : list Notification → NotificationData → option string)
    (user : User) (formData : FormData) (db : Db)
    (Hadmin : role user = "admin")
    (Hchoice : recipientType formData ∈ ["students"; "drivers"; "admins"; "admin"])
    (Haccepts : ∀ stored d, create_error stored d = None) :
  backendRole formData ∈ ["student"; "driver"; "admin"]
  ∧ handleSubmit_call (Some user) formData
    = call_createNotification (form_title formData) (form_message formData)
        (form_priority formData) (backendRole formData) None
  ∧ ∃ n : Notification,
      route_of_call create_error user (handleSubmit_call (Some user) formData) db
      = Some (Returned {| status := 201; success := true;
                          res_message := Some "Notification created successfully";
                          res_error := None; data := one n |},
              db_after db [n])
      ∧ receiverRole n = backendRole formData
      ∧ receiverId n = None
      ∧ ∀ V : User,
          getNotification_hasAccess n V = true ↔ role V = backendRole formData.
Proof.
  assert (Hmapped : backendRole formData ∈ ["student"; "driver"; "admin"]
                    ∧ recipientType formData ≠ "all").
  { unfold backendRole. rewrite !elem_of_cons, elem_of_nil in Hchoice.
    destruct Hchoice as [->|[->|[->|[->|[]]]]];
      (split; [|done]);
      match goal with
      | |- ?r ∈ _ => let r' := eval vm_compute in r in change r with r'
      end;
      rewrite !elem_of_cons; auto. }
  destruct Hmapped as [Hmapped Hnotall].
  assert (Hcall : handleSubmit_call (Some user) formData
                  = call_createNotification (form_title formData) (form_message formData)
                      (form_priority formData) (backendRole formData) None).
  { unfold handleSubmit_call. cbn [fmap option_fmap option_map].
    rewrite bool_decide_eq_false_2 by (rewrite Hadmin; congruence).
    by rewrite (bool_decide_eq_false_2 _ Hnotall). }
  split; [exact Hmapped|]. split; [exact Hcall|].
  rewrite Hcall. cbn [route_of_call].
  unfold adminOrDriver. rewrite (bool_decide_eq_true_2 _ Hadmin). cbn [orb].
  eexists. split.
  { unfold createNotification, mbind, Handler_bind.
    rewrite (bool_decide_eq_false_2 (role user ≠ "admin")) by (intros Hne; by apply Hne).
    rewrite andb_false_r. by rewrite create_accepted. }
  split; [done|]. split; [done|]. intros V.
  rewrite role_wide_hasAccess; [| done | done |].
  - rewrite bool_decide_eq_true. cbn. split; congruence.
  - cbn. intros Heq. rewrite Heq in Hmapped.
    rewrite !elem_of_cons, elem_of_nil in Hmapped. intuition congruence.
Qed.

Lemma form_role_choice_is_role_wide_witness :
  ∃ n : Notification,
    route_of_call accepts_all ann
      (handleSubmit_call (Some ann)
         {| form_title := "Exams"; form_message := "Buses run early";
            form_priority := "high"; recipientType := "students" |})
      sample_db
    ≫= (λ r, data <$> responded r)
    = Some (one n)
    ∧ receiverRole n = "student"
    ∧ getNotification_hasAccess n sue = true.
Proof.
  destruct (form_role_choice_is_role_wide accepts_all ann
              {| form_title := "Exams"; form_message := "Buses run early";
                 form_priority := "high"; recipientType := "students" |} sample_db)
    as (_ & _ & n & Hrun & Hto & _ & Hvisible).
  - reflexivity.
  - rewrite !elem_of_cons. auto.
  - reflexivity.
  - exists n. split; [by rewrite Hrun|]. split; [exact Hto|].
    apply Hvisible. reflexivity.
Defined.

(** ** Statistics on the collections the controller builds *)

Lemma step_keeps_tag
    (create_error : list Notification → NotificationData → option string) (db db' : Db) :
  step create_error db db' →
  tag_only_on_all (notifications db) → tag_only_on_all (notifications db').
Proof.
  intros Hstep Hinv. destruct Hstep.
  - destruct (sendTargeted_stores create_error user subject body q_type q_priority
                targetType db) as (literals & -> & Hok).
    by apply tag_only_on_all_after.
  - destruct (createNotification_stores create_error user subject body q_type q_priority
                to_role to_id related db) as (literals & -> & Hok).
    by apply tag_only_on_all_after.
  - destruct (broadcast_stores create_error user subject body q_type q_priority
                targetRoles db) as (literals & -> & Hok).
    by apply tag_only_on_all_after.
  - unfold getNotification, mbind, Handler_bind, Notification_findById.
    cbn [fst snd]. destruct (head _) as [n|]; [|done]. by destruct (negb _).
  - destruct (markAsRead_stores user nid now db) as (g & -> & Hg).
    cbn [notifications]. apply tag_only_on_all_fmap; [|done].
    intros m Hm. by destruct (Hg m Hm).
  - rewrite markAllAsRead_run. cbn [snd notifications].
    apply tag_only_on_all_fmap; [|done].
    intros m Hm. exists m. split; [done|]. by destruct (_ && _).
  - unfold deleteNotification, mbind, Handler_bind, Notification_findById,
      Notification_findByIdAndDelete.
    cbn [fst snd]. destruct (head _) as [n|]; [|done]. destruct (negb _); [done|].
    cbn [snd notifications]. intros m [_ Hm]%list_elem_of_filter. by apply Hinv.
Qed.

(** In every database the controller can bring about, the admin tag sits
    only on records with receiverRole "all". *)
Lemma reachable_tag_only_on_all
    (create_error : list Notification → NotificationData → option string) (db : Db) :
  reachable create_error db → tag_only_on_all (notifications db).
Proof.
  induction 1 as [db Hempty|db db' _ IH Hstep].
  - rewrite Hempty. intros n Hn. by apply elem_of_nil in Hn.
  - by eapply step_keeps_tag.
Qed.

(** C3: in every database the controller can bring about, starting from an
    empty collection and serving any requests, the statistics filter of a
    viewer matches exactly the stored notifications that the viewer's
    listing filter matches, so both queries return the same notifications
    and the statistics total is the listing total; in particular, for an
    admin viewer the statistics filter matches every stored notification
    carrying metadata.intendedRole = "admin". *)
Theorem stats_match_what_listing_matches
    (create_error : list Notification → NotificationData → option string)
    (db : Db) (V : User)
    (Hreach : reachable create_error db) :
  (∀ n : Notification, n ∈ notifications db →
     matches (getNotificationStats_filter V) n
     = matches (getNotifications_filter V None None None) n)
  ∧ responded (Notification_find (getNotificationStats_filter V) db)
    = responded (Notification_find (getNotifications_filter V None None None) db)
  ∧ stats_total <$> responded (getNotificationStats V db)
    = fst <$> responded (getNotifications_counts V None None None db)
  ∧ (role V = "admin" →
     ∀ n : Notification, n ∈ notifications db →
       intendedRole_is n "admin" = true →
       matches (getNotificationStats_filter V) n = true).
Proof.
  pose proof (reachable_tag_only_on_all create_error db Hreach) as Htag.
  assert (Hpoint : ∀ n : Notification, n ∈ notifications db →
            matches (getNotificationStats_filter V) n
            = matches (getNotifications_filter V None None None) n).
  { intros n Hn. apply stats_filter_listing_tagged_all. intros Htagged.
    by apply (Htag n Hn). }
  assert (Hfind : List.filter (matches (getNotificationStats_filter V)) (notifications db)
                  = List.filter (matches (getNotifications_filter V None None None))
                      (notifications db)).
  { apply List.filter_ext_in. intros n Hn. apply Hpoint. by apply list_elem_of_In. }
  split; [exact Hpoint|]. split; [|split].
  - unfold responded, Notification_find. cbn [fst]. by rewrite Hfind.
  - unfold responded, getNotificationStats, getNotifications_counts, mbind, Handler_bind,
      Notification_find, Notification_countDocuments.
    cbn [fst snd mret Handler_ret fmap option_fmap option_map stats_total].
    by rewrite Hfind.
  - intros Hadmin n Hn Htagged.
    destruct (Htag n Hn Htagged) as [Hall _].
    unfold matches, getNotificationStats_filter. cbn.
    rewrite (bool_decide_eq_true_2 _ Hall). by rewrite !orb_true_r.
Qed.

Lemma stats_match_what_listing_matches_witness :
  let db := (sendTargetedNotification accepts_all dan "Flat tyre" "Bus 7 is stopped"
               None None "admin" (campus [sam])).2 in
  responded (Notification_find (getNotificationStats_filter ann) db)
  = responded (Notification_find (getNotifications_filter ann None None None) db)
  ∧ matches (getNotificationStats_filter ann) admin_copy = true.
Proof.
  intros db.
  assert (Hreach : reachable accepts_all db).
  { apply (reachable_step accepts_all (campus [sam]));
      [by apply reachable_empty | apply step_sendTargetedNotification]. }
  destruct (stats_match_what_listing_matches accepts_all db ann Hreach)
    as (_ & Hfind & _ & Htagged).
  split; [exact Hfind|].
  apply Htagged; [reflexivity | | reflexivity].
  vm_compute. apply list_elem_of_here.
Defined.
